(** * Hotel reservation pricing and ledger (trabalhooficial.py)

    A shallow embedding of the pricing strategies ([TipoDeQuarto] and its two
    subclasses), of the room object ([UnidadeHospedagem]), of the reservation
    record ([Reserva]) and of the management system
    ([SistemaDeGerenciamentoDeHospedagem]), followed by the properties the
    specification states about them.

    Amounts.  The Python code computes on [float].  The pricing code is kept
    generic in the arithmetic (class [Numero]): the control flow, the order of
    the operations and the int-to-float conversions are those of the source.
    Two instances are given: exact rationals [Q], which is the [decimal] of
    the specification, and binary64 [float], which is what CPython runs.
    Properties that do not depend on the arithmetic are proved for every
    instance; numeric laws are proved in exact arithmetic, and the worked
    examples are also evaluated in binary64.

    Those operations take the conversion of an [int] to a [float] and every
    [print] as total.  The module [CPython] embeds the fares, the validation,
    the booking and the listing once more on binary64, with the
    [OverflowError] of the conversion, the [ValueError] of an f-string on an
    [int] of more than 4300 digits, and one output item per [print]; the
    properties that depend on those failures are stated on it. *)

From Stdlib Require Import ZArith QArith Qabs Qround Lqa Lia List String Bool.
From Stdlib Require Import PrimFloat FloatOps SpecFloat.
From Stdlib Require Import Ascii.
Import ListNotations.

Set Implicit Arguments.
Set Warnings "-inexact-float".

(** ** Arithmetic *)

Declare Scope num_scope.
Delimit Scope num_scope with num.

(** The operations the source applies to amounts.  [de_int] is the
    conversion Python inserts when an [int] meets a [float] ([tarifa * dias],
    [1 + taxa], the [0] that [sum] starts from); [literal] reads a decimal
    literal of the program text, such as the [0.20] of [SuiteMaster]. *)
Class Numero (num : Type) : Type := {
  soma : num -> num -> num;
  subtrai : num -> num -> num;
  produto : num -> num -> num;
  de_int : Z -> num;
  literal : Q -> num
}.

Infix "+" := soma : num_scope.
Infix "-" := subtrai : num_scope.
Infix "*" := produto : num_scope.

(** Exact arithmetic. *)
#[export] Instance Numero_Q : Numero Q := {|
  soma := Qplus;
  subtrai := Qminus;
  produto := Qmult;
  de_int := inject_Z;
  literal := fun q => q
|}.

(** Binary64, round to nearest even.  The conversion of an [int] is the
    correctly rounded one; CPython raises [OverflowError] where it would
    overflow (beyond about 1.8e308), inputs this instance is not used on.
    A decimal literal is read as the quotient of its numerator and
    denominator, one correctly rounded division: the nearest binary64 value
    whenever both are below 2^53. *)
Definition float_of_Z (z : Z) : float :=
  SF2Prim (binary_normalize prec emax z 0 false).

Definition float_of_literal (q : Q) : float :=
  PrimFloat.div (float_of_Z (Qnum q)) (float_of_Z (Zpos (Qden q))).

#[export] Instance Numero_float : Numero float := {|
  soma := PrimFloat.add;
  subtrai := PrimFloat.sub;
  produto := PrimFloat.mul;
  de_int := float_of_Z;
  literal := float_of_literal
|}.

(** ** Pricing strategies *)

Section Tarifas.

Context {num : Type} `{Numero num}.
Local Open Scope num_scope.

(** [TipoDeQuarto] is abstract; its concrete subclasses are [QuartoStandard]
    and [SuiteMaster].  Instances are never mutated after [__init__]. *)
Inductive TipoDeQuarto : Type :=
| QuartoStandard (tarifa_diaria_base taxa_servico_base taxa_limpeza_adicional : num)
| SuiteMaster (tarifa_diaria_base taxa_servico_base desconto_fidelidade : num).

Definition nome (self : TipoDeQuarto) : string :=
  match self with
  | QuartoStandard _ _ _ => "Standard"
  | SuiteMaster _ _ _ => "Luxo"
  end.

Definition tarifa_diaria_base (self : TipoDeQuarto) : num :=
  match self with
  | QuartoStandard t _ _ => t
  | SuiteMaster t _ _ => t
  end.

Definition taxa_servico_base (self : TipoDeQuarto) : num :=
  match self with
  | QuartoStandard _ s _ => s
  | SuiteMaster _ s _ => s
  end.

Definition calcular_valor_reserva (self : TipoDeQuarto) (dias : Z)
    (consumo_minibar taxa_ocupacao : num) : num :=
  match self with
  | QuartoStandard tarifa taxa taxa_limpeza_adicional =>
      let valor_base := (tarifa * de_int dias) * taxa_ocupacao in
      let valor_com_minibar := valor_base + consumo_minibar in
      let valor_com_taxa := valor_com_minibar * (de_int 1 + taxa) in
      if (dias >? 5)%Z
      then valor_com_taxa + taxa_limpeza_adicional
      else valor_com_taxa
  | SuiteMaster tarifa taxa desconto_fidelidade =>
      let valor_base := (tarifa * de_int dias) * taxa_ocupacao in
      let acrescimo_20 := valor_base * literal 0.20 in
      let valor_com_acrescimo := valor_base + acrescimo_20 in
      let valor_com_minibar := valor_com_acrescimo + consumo_minibar in
      let valor_com_taxa := valor_com_minibar * (de_int 1 + taxa) in
      if (dias >? 3)%Z
      then valor_com_taxa - desconto_fidelidade
      else valor_com_taxa
  end.

End Tarifas.

Arguments TipoDeQuarto num : clear implicits.

(** ** Objects, exceptions and output *)

(** Identity of a [UnidadeHospedagem] object.  Units are mutable and shared:
    the system's list and every reservation hold references to them. *)
Definition Ref := nat.

Inductive Excecao : Type :=
| QuartoNaoAssociadoError (numero : Z)
| DiasInvalidosError
| OutraExcecao (descricao : string).

Section Hospedagem.

Context {num : Type} `{Numero num}.
Local Open Scope num_scope.

Record UnidadeHospedagem : Type := {
  numero_quarto : Z;
  localizacao : string;
  tipo_quarto : option (TipoDeQuarto num)
}.

Record Reserva : Type := {
  unidade : Ref;
  dias : Z;
  consumo_minibar : num;
  taxa_ocupacao : num;
  valor_total : num
}.

Record SistemaDeGerenciamentoDeHospedagem : Type := {
  quartos : list Ref;
  historico_reservas : list Reserva
}.

(** What the program prints, one constructor per message. *)
Inductive Linha : Type :=
| LinhaQuarto (numero : Z) (local tipo : string) (tarifa : num)
| LinhaQuartoNaoEncontrado (numero : Z)
| LinhaSucesso (numero : Z)
| LinhaResumo (numero : Z) (tipo local : string) (d : Z) (minibar valor : num)
| LinhaFalha (e : Excecao)
| LinhaErroInesperado (e : Excecao)
| LinhaFaturamento (reservas : nat) (total : num).

(** The state of a run: the unit objects by reference, the next fresh
    reference, the management system and the lines printed so far. *)
Record Mundo : Type := {
  objetos : Ref -> UnidadeHospedagem;
  proximo : Ref;
  sistema : SistemaDeGerenciamentoDeHospedagem;
  saida : list Linha
}.

(** ** State and exception monad *)

Definition Resultado (A : Type) : Type := (Excecao + A)%type.

Definition M (A : Type) : Type := Mundo -> Resultado A * Mundo.

Definition ret {A} (a : A) : M A := fun w => (inr a, w).

Definition bind {A B} (m : M A) (k : A -> M B) : M B :=
  fun w =>
    match m w with
    | (inl e, w') => (inl e, w')
    | (inr a, w') => k a w'
    end.

(** [try: body except Exception as e: handler e].  What [body] did to the
    state before raising is kept. *)
Definition try_except {A} (body : M A) (handler : Excecao -> M A) : M A :=
  fun w =>
    match body w with
    | (inl e, w') => handler e w'
    | (inr a, w') => (inr a, w')
    end.

Definition gets {A} (f : Mundo -> A) : M A := fun w => (inr (f w), w).

Definition modify (f : Mundo -> Mundo) : M unit := fun w => (inr tt, f w).

(** A call that returns or raises without touching the state. *)
Definition levantar {A} (r : Resultado A) : M A := fun w => (r, w).

End Hospedagem.

Arguments UnidadeHospedagem num : clear implicits.
Arguments Reserva num : clear implicits.
Arguments SistemaDeGerenciamentoDeHospedagem num : clear implicits.
Arguments Linha num : clear implicits.
Arguments Mundo num : clear implicits.
Arguments M num A : clear implicits.

Declare Scope monad_scope.
Delimit Scope monad_scope with monad.
Notation "x <- m ;; k" := (bind m (fun x => k))
  (at level 61, m at next level, right associativity) : monad_scope.
Notation "m ;; k" := (bind m (fun _ => k))
  (at level 61, right associativity) : monad_scope.

(** ** Operations *)

Section Operacoes.

Context {num : Type} `{Numero num}.
Local Open Scope monad_scope.

(** [print]: one more line on the output. *)
Definition com_linha (w : Mundo num) (l : Linha num) : Mundo num :=
  {| objetos := objetos w; proximo := proximo w;
     sistema := sistema w; saida := saida w ++ [l] |}.

Definition imprimir (l : Linha num) : M num unit :=
  modify (fun w => com_linha w l).

(** *** UnidadeHospedagem *)

(** [UnidadeHospedagem(numero_quarto, localizacao)]: a new object, with no
    associated type. *)
Definition nova_unidade (numero : Z) (local : string) : M num Ref :=
  fun w =>
    let q := proximo w in
    let u := {| numero_quarto := numero; localizacao := local;
                tipo_quarto := None |} in
    (inr q,
     {| objetos := fun r => if Nat.eqb r q then u else objetos w r;
        proximo := S q; sistema := sistema w; saida := saida w |}).

Definition associar_tipo_quarto (self : Ref) (tipo : TipoDeQuarto num)
  : M num unit :=
  modify (fun w =>
    let u := objetos w self in
    let u' := {| numero_quarto := numero_quarto u;
                 localizacao := localizacao u;
                 tipo_quarto := Some tipo |} in
    {| objetos := fun r => if Nat.eqb r self then u' else objetos w r;
       proximo := proximo w; sistema := sistema w; saida := saida w |}).

(** The method reads the fields of [self] and nothing else. *)
Definition iniciar_reserva (self : UnidadeHospedagem num) (d : Z)
    (minibar ocupacao : num) : Resultado num :=
  match tipo_quarto self with
  | None => inl (QuartoNaoAssociadoError (numero_quarto self))
  | Some tipo =>
      if (d <=? 0)%Z then inl DiasInvalidosError
      else inr (calcular_valor_reserva tipo d minibar ocupacao)
  end.

(** *** Reserva *)

(** [Reserva.registrar_reserva(self, sistema_gerenciamento)]. *)
Definition com_reserva (w : Mundo num) (r : Reserva num) : Mundo num :=
  {| objetos := objetos w; proximo := proximo w;
     sistema := {| quartos := quartos (sistema w);
                   historico_reservas :=
                     historico_reservas (sistema w) ++ [r] |};
     saida := saida w |}.

Definition Reserva_registrar_reserva (self : Reserva num) : M num unit :=
  modify (fun w => com_reserva w self).

(** The summary [exibir_resumo] prints, read through the unit the
    reservation refers to. *)
Definition linha_resumo (w : Mundo num) (self : Reserva num) : Linha num :=
  let u := objetos w (unidade self) in
  let tipo := match tipo_quarto u with
              | Some t => nome t
              | None => "N/A"%string
              end in
  LinhaResumo (numero_quarto u) tipo (localizacao u) (dias self)
    (consumo_minibar self) (valor_total self).

Definition exibir_resumo (self : Reserva num) : M num unit :=
  l <- gets (fun w => linha_resumo w self) ;;
  imprimir l.

(** *** SistemaDeGerenciamentoDeHospedagem *)

Definition sistema_novo : SistemaDeGerenciamentoDeHospedagem num :=
  {| quartos := []; historico_reservas := [] |}.

Definition adicionar_quarto (quarto : Ref) : M num unit :=
  modify (fun w =>
    {| objetos := objetos w; proximo := proximo w;
       sistema := {| quartos := quartos (sistema w) ++ [quarto];
                     historico_reservas := historico_reservas (sistema w) |};
       saida := saida w |}).

(** [for x in l: corpo x] *)
Fixpoint para_cada {A : Type} (l : list A) (corpo : A -> M num unit)
  : M num unit :=
  match l with
  | [] => ret tt
  | x :: resto => corpo x ;; para_cada resto corpo
  end.

(** The body of the loop of [listar_quartos]. *)
Definition imprimir_quarto (quarto : Ref) : M num unit :=
  u <- gets (fun w => objetos w quarto) ;;
  let tipo := match tipo_quarto u with
              | Some t => nome t
              | None => "NÃO ASSOCIADO"%string
              end in
  let tarifa := match tipo_quarto u with
                | Some t => tarifa_diaria_base t
                | None => literal 0.0
                end in
  imprimir (LinhaQuarto (numero_quarto u) (localizacao u) tipo tarifa).

Definition listar_quartos : M num unit :=
  qs <- gets (fun w => quartos (sistema w)) ;;
  para_cada qs imprimir_quarto.

(** [next((q for q in self._quartos if q.numero_quarto == numero_quarto), None)] *)
Definition selecionar (numero : Z) (w : Mundo num) : option Ref :=
  find (fun q => (numero_quarto (objetos w q) =? numero)%Z)
       (quartos (sistema w)).

(** The body of the [try] block of [registrar_reserva], for the unit found. *)
Definition corpo_do_try (numero : Z) (quarto : Ref) (d : Z)
    (minibar ocupacao : num) : M num unit :=
  u <- gets (fun w => objetos w quarto) ;;
  valor <- levantar (iniciar_reserva u d minibar ocupacao) ;;
  let nova_reserva :=
    {| unidade := quarto; dias := d; consumo_minibar := minibar;
       taxa_ocupacao := ocupacao; valor_total := valor |} in
  Reserva_registrar_reserva nova_reserva ;;
  imprimir (LinhaSucesso numero) ;;
  exibir_resumo nova_reserva.

(** Its two [except] clauses, tried in order. *)
Definition clausulas_except (e : Excecao) : M num unit :=
  match e with
  | QuartoNaoAssociadoError _ | DiasInvalidosError => imprimir (LinhaFalha e)
  | OutraExcecao _ => imprimir (LinhaErroInesperado e)
  end.

Definition registrar_reserva (numero : Z) (d : Z) (minibar ocupacao : num)
  : M num unit :=
  quarto_selecionado <- gets (selecionar numero) ;;
  match quarto_selecionado with
  | None => imprimir (LinhaQuartoNaoEncontrado numero)
  | Some quarto =>
      try_except (corpo_do_try numero quarto d minibar ocupacao)
                 clausulas_except
  end.

(** The builtin [sum]: left to right, starting from the int [0]. *)
Definition sum (valores : list num) : num :=
  fold_left soma valores (de_int 0).

Definition total_faturado (s : SistemaDeGerenciamentoDeHospedagem num) : num :=
  sum (map (@valor_total num) (historico_reservas s)).

Definition resumo_faturamento_mensal : M num unit :=
  s <- gets (@sistema num) ;;
  imprimir (LinhaFaturamento (List.length (historico_reservas s))
              (total_faturado s)).

(** *** Outcomes of a booking request *)

(** The reservation a successful booking records. *)
Definition reserva_de (q : Ref) (t : TipoDeQuarto num) (d : Z)
    (m o : num) : Reserva num :=
  {| unidade := q; dias := d; consumo_minibar := m; taxa_ocupacao := o;
     valor_total := calcular_valor_reserva t d m o |}.

(** The state after a successful booking: the reservation appended, the
    confirmation and the summary printed. *)
Definition mundo_apos_sucesso (w : Mundo num) (numero : Z)
    (r : Reserva num) : Mundo num :=
  let w1 := com_linha (com_reserva w r) (LinhaSucesso numero) in
  com_linha w1 (linha_resumo w1 r).

(** The four ways a request can end, with the state each leaves. *)
Inductive Desfecho (numero d : Z) (m o : num) (w : Mundo num)
  : Mundo num -> Prop :=
| DesfechoNaoEncontrado :
    selecionar numero w = None ->
    Desfecho numero d m o w (com_linha w (LinhaQuartoNaoEncontrado numero))
| DesfechoSemTipo q :
    selecionar numero w = Some q ->
    tipo_quarto (objetos w q) = None ->
    Desfecho numero d m o w
      (com_linha w (LinhaFalha
                      (QuartoNaoAssociadoError (numero_quarto (objetos w q)))))
| DesfechoDiasInvalidos q t :
    selecionar numero w = Some q ->
    tipo_quarto (objetos w q) = Some t -> (d <= 0)%Z ->
    Desfecho numero d m o w (com_linha w (LinhaFalha DiasInvalidosError))
| DesfechoSucesso q t :
    selecionar numero w = Some q ->
    tipo_quarto (objetos w q) = Some t -> (0 < d)%Z ->
    Desfecho numero d m o w
      (mundo_apos_sucesso w numero (reserva_de q t d m o)).

(** *** A fresh system and the run of [demonstracao] *)

Definition mundo_inicial : Mundo num :=
  {| objetos := fun _ => {| numero_quarto := 0; localizacao := "";
                            tipo_quarto := None |};
     proximo := 0%nat; sistema := sistema_novo; saida := [] |}.

Definition demonstracao : M num unit :=
  let standard_type :=
    QuartoStandard (literal 150.00) (literal 0.10) (literal 50.00) in
  let master_type :=
    SuiteMaster (literal 300.00) (literal 0.15) (literal 30.00) in
  q101 <- nova_unidade 101 "1º andar, vista mar" ;;
  q102 <- nova_unidade 102 "1º andar, vista interna" ;;
  q201 <- nova_unidade 201 "2º andar, vista mar" ;;
  associar_tipo_quarto q101 standard_type ;;
  associar_tipo_quarto q102 standard_type ;;
  associar_tipo_quarto q201 master_type ;;
  adicionar_quarto q101 ;;
  adicionar_quarto q102 ;;
  adicionar_quarto q201 ;;
  q301 <- nova_unidade 301 "3º andar, cobertura" ;;
  adicionar_quarto q301 ;;
  listar_quartos ;;
  registrar_reserva 101 3 (literal 20.00) (literal 1.0) ;;
  registrar_reserva 102 7 (literal 0.00) (literal 1.0) ;;
  registrar_reserva 201 4 (literal 50.00) (literal 1.0) ;;
  registrar_reserva 301 2 (literal 10.00) (literal 1.0) ;;
  registrar_reserva 101 0 (literal 10.00) (literal 1.0) ;;
  resumo_faturamento_mensal.

(** *** Runs of client code *)

(** One call of the public interface.  Clients build reservations through
    [registrar_reserva] of the system only. *)
Inductive Passo : Mundo num -> Mundo num -> Prop :=
| PassoNovaUnidade numero local w :
    Passo w (snd (nova_unidade numero local w))
| PassoAssociar q tipo w :
    Passo w (snd (associar_tipo_quarto q tipo w))
| PassoAdicionar q w :
    Passo w (snd (adicionar_quarto q w))
| PassoListar w :
    Passo w (snd (listar_quartos w))
| PassoRegistrar numero d minibar ocupacao w :
    Passo w (snd (registrar_reserva numero d minibar ocupacao w))
| PassoResumo w :
    Passo w (snd (resumo_faturamento_mensal w)).

(** Any number of calls, one after the other. *)
Inductive Passos : Mundo num -> Mundo num -> Prop :=
| PassosFim w : Passos w w
| PassosMais w w1 w2 : Passo w w1 -> Passos w1 w2 -> Passos w w2.

(** The states a client can reach from a fresh system. *)
Inductive Alcancavel : Mundo num -> Prop :=
| AlcInicial : Alcancavel mundo_inicial
| AlcPasso w w' : Alcancavel w -> Passo w w' -> Alcancavel w'.

(** Client programs stay within the reachable states. *)
Definition Cliente {A : Type} (p : M num A) : Prop :=
  forall w, Alcancavel w -> Alcancavel (snd (p w)).

(** Number of bookings reported as registered in an output. *)
Definition eh_sucesso (l : Linha num) : bool :=
  match l with
  | LinhaSucesso _ => true
  | _ => false
  end.

Definition sucessos (out : list (Linha num)) : nat :=
  List.length (filter eh_sucesso out).

End Operacoes.

(** ** Example states, in exact arithmetic *)

(** The state [demonstracao] ends in. *)
Definition mundo_demonstracao : Mundo Q := snd (demonstracao mundo_inicial).

(** Two units registered under the same number: a standard room first, a
    suite second. *)
Definition mundo_duplicado : Mundo Q :=
  snd ((q0 <- nova_unidade 101 "ala norte" ;;
        q1 <- nova_unidade 101 "ala sul" ;;
        associar_tipo_quarto q0 (QuartoStandard 150 0.10 50) ;;
        associar_tipo_quarto q1 (SuiteMaster 300 0.15 30) ;;
        adicionar_quarto q0 ;;
        adicionar_quarto q1)%monad mundo_inicial).

(** ** Reference definitions in exact arithmetic *)


(** The rational a finite binary64 number stands for. *)
Definition Q_of_float (x : float) : option Q :=
  match Prim2SF x with
  | S754_zero _ => Some 0
  | S754_finite s m e => Some (inject_Z (cond_Zopp s (Zpos m)) * Qpower 2 e)
  | S754_infinity _ | S754_nan => None
  end.

(** Rounding to the nearest integer, ties to even. *)
Definition arredondar (x : Q) : Z :=
  let piso := Qfloor x in
  match (x - inject_Z piso ?= 1 # 2)%Q with
  | Lt => piso
  | Gt => (piso + 1)%Z
  | Eq => if Z.even piso then piso else (piso + 1)%Z
  end.

(** The amount the format [:.2f] of [exibir_resumo] shows for a finite
    float, in hundredths: the exact value, correctly rounded. *)
Definition duas_casas (x : float) : option Z :=
  option_map (fun q => arredondar (q * 100)) (Q_of_float x).

(** ** Notions used by the further properties *)

Section Nocoes.

Context {num : Type} `{Numero num}.

(** A reservation as a validated booking leaves it: positive days, a unit
    of the system's list, and the fare of some type on its own stay. *)
Definition ReservaRegular (w : Mundo num) (r : Reserva num) : Prop :=
  (0 < dias r)%Z /\
  In (unidade r) (quartos (sistema w)) /\
  exists t, valor_total r =
            calcular_valor_reserva t (dias r) (consumo_minibar r)
              (taxa_ocupacao r).


End Nocoes.

(** ** CPython: the conversions and the prints that can raise

    The operations above take the conversion of an [int] to a [float] and
    every [print] as total.  In CPython (3.11 or later, with its default
    limits, writing to a stream that accepts every string) two of them
    raise: an [int] operand of [float * int] beyond the range of binary64
    raises [OverflowError], and an f-string that formats an [int] of more
    than 4300 decimal digits raises [ValueError].  This module embeds the
    same methods on binary64 amounts with both failures, one output item per
    call of [print]. *)

Declare Scope py_scope.
Delimit Scope py_scope with py.

Module CPython.

(** The two exceptions of the interpreter, of classes other than the
    program's own. *)
Definition OverflowError : Excecao := OutraExcecao "OverflowError".

Definition ValueError : Excecao := OutraExcecao "ValueError".

(** [sys.get_int_max_str_digits()], by default. *)
Definition int_max_str_digits : Z := 4300.

(** Whether [str] of an [int] succeeds, as an f-string field needs: the
    number has at most [int_max_str_digits] decimal digits. *)
Definition str_int_ok (z : Z) : bool :=
  (Z.abs z <? 10 ^ int_max_str_digits)%Z.

(** The [float] an [int] operand of a mixed operation is converted to: the
    correctly rounded one, and [OverflowError] where that is infinite. *)
Definition float_de_int (z : Z) : Resultado float :=
  match binary_normalize prec emax z 0 false with
  | S754_infinity _ => inl OverflowError
  | sf => inr (SF2Prim sf)
  end.

Definition calcular_valor_reserva (self : TipoDeQuarto float) (dias : Z)
    (consumo_minibar taxa_ocupacao : float) : Resultado float :=
  match self with
  | QuartoStandard tarifa taxa taxa_limpeza_adicional =>
      match float_de_int dias with
      | inl e => inl e
      | inr d =>
          let valor_base := ((tarifa * d) * taxa_ocupacao)%float in
          let valor_com_minibar := (valor_base + consumo_minibar)%float in
          let valor_com_taxa := (valor_com_minibar * (1 + taxa))%float in
          inr (if (dias >? 5)%Z
               then (valor_com_taxa + taxa_limpeza_adicional)%float
               else valor_com_taxa)
      end
  | SuiteMaster tarifa taxa desconto_fidelidade =>
      match float_de_int dias with
      | inl e => inl e
      | inr d =>
          let valor_base := ((tarifa * d) * taxa_ocupacao)%float in
          let acrescimo_20 := (valor_base * 0.20)%float in
          let valor_com_acrescimo := (valor_base + acrescimo_20)%float in
          let valor_com_minibar :=
            (valor_com_acrescimo + consumo_minibar)%float in
          let valor_com_taxa := (valor_com_minibar * (1 + taxa))%float in
          inr (if (dias >? 3)%Z
               then (valor_com_taxa - desconto_fidelidade)%float
               else valor_com_taxa)
      end
  end.

(** The message of [QuartoNaoAssociadoError] is an f-string on the number of
    the unit, built before the exception is raised. *)
Definition iniciar_reserva (self : UnidadeHospedagem float) (d : Z)
    (minibar ocupacao : float) : Resultado float :=
  match tipo_quarto self with
  | None =>
      if str_int_ok (numero_quarto self)
      then inl (QuartoNaoAssociadoError (numero_quarto self))
      else inl ValueError
  | Some tipo =>
      if (d <=? 0)%Z then inl DiasInvalidosError
      else calcular_valor_reserva tipo d minibar ocupacao
  end.

(** One constructor per [print] of the methods embedded here; [ImpTexto] is
    a [print] of a constant text. *)
Inductive Impressao : Type :=
| ImpTexto (texto : string)
| ImpQuarto (numero : Z) (local tipo : string) (tarifa : float)
| ImpNaoEncontrado (numero : Z)
| ImpSucesso (numero : Z)
| ImpFalha (e : Excecao)
| ImpErroInesperado (e : Excecao)
| ImpResumoQuarto (numero : Z) (tipo : string)
| ImpResumoLocal (local : string)
| ImpResumoDias (d : Z)
| ImpResumoMinibar (minibar : float)
| ImpResumoValor (valor : float).

(** Whether the f-string of the item can be built: its [int] fields. *)
Definition imprimivel (i : Impressao) : bool :=
  match i with
  | ImpQuarto numero _ _ _ => str_int_ok numero
  | ImpNaoEncontrado numero => str_int_ok numero
  | ImpSucesso numero => str_int_ok numero
  | ImpResumoQuarto numero _ => str_int_ok numero
  | ImpResumoDias d => str_int_ok d
  | _ => true
  end.

Definition nl : string := String "010"%char EmptyString.

Definition cabecalho_quartos : Impressao :=
  ImpTexto (nl ++ "--- Quartos Registrados ---").

Definition rodape_quartos : Impressao :=
  ImpTexto "---------------------------".

Definition cabecalho_resumo : Impressao :=
  ImpTexto (nl ++ "--- Detalhes da Transação (Reserva) ---").

Definition rodape_resumo : Impressao :=
  ImpTexto "--------------------------------------".

Record Estado : Type := {
  objetos : Ref -> UnidadeHospedagem float;
  proximo : Ref;
  sistema : SistemaDeGerenciamentoDeHospedagem float;
  saida : list Impressao
}.

Definition M (A : Type) : Type := Estado -> Resultado A * Estado.

Definition ret {A} (a : A) : M A := fun w => (inr a, w).

Definition bind {A B} (m : M A) (k : A -> M B) : M B :=
  fun w =>
    match m w with
    | (inl e, w') => (inl e, w')
    | (inr a, w') => k a w'
    end.

Definition try_except {A} (body : M A) (handler : Excecao -> M A) : M A :=
  fun w =>
    match body w with
    | (inl e, w') => handler e w'
    | (inr a, w') => (inr a, w')
    end.

Definition gets {A} (f : Estado -> A) : M A := fun w => (inr (f w), w).

Definition levantar {A} (r : Resultado A) : M A := fun w => (r, w).

Notation "x <- m ;; k" := (bind m (fun x => k))
  (at level 61, m at next level, right associativity) : py_scope.
Notation "m ;; k" := (bind m (fun _ => k))
  (at level 61, right associativity) : py_scope.

Local Open Scope py_scope.

Definition com_linha (w : Estado) (i : Impressao) : Estado :=
  {| objetos := objetos w; proximo := proximo w;
     sistema := sistema w; saida := saida w ++ [i] |}.

Definition com_linhas (w : Estado) (l : list Impressao) : Estado :=
  {| objetos := objetos w; proximo := proximo w;
     sistema := sistema w; saida := saida w ++ l |}.

(** [print(f"...")]: the text is built first; nothing is written when that
    raises. *)
Definition print (i : Impressao) : M unit :=
  fun w => if imprimivel i then (inr tt, com_linha w i)
           else (inl ValueError, w).

Definition estado_inicial : Estado :=
  {| objetos := fun _ => {| numero_quarto := 0; localizacao := "";
                            tipo_quarto := None |};
     proximo := 0%nat;
     sistema := {| quartos := []; historico_reservas := [] |};
     saida := [] |}.

Definition nova_unidade (numero : Z) (local : string) : M Ref :=
  fun w =>
    let q := proximo w in
    let u := {| numero_quarto := numero; localizacao := local;
                tipo_quarto := None |} in
    (inr q,
     {| objetos := fun r => if Nat.eqb r q then u else objetos w r;
        proximo := S q; sistema := sistema w; saida := saida w |}).

Definition associar_tipo_quarto (self : Ref) (tipo : TipoDeQuarto float)
  : M unit :=
  fun w =>
    let u := objetos w self in
    let u' := {| numero_quarto := numero_quarto u;
                 localizacao := localizacao u;
                 tipo_quarto := Some tipo |} in
    (inr tt,
     {| objetos := fun r => if Nat.eqb r self then u' else objetos w r;
        proximo := proximo w; sistema := sistema w; saida := saida w |}).

Definition adicionar_quarto (quarto : Ref) : M unit :=
  fun w =>
    (inr tt,
     {| objetos := objetos w; proximo := proximo w;
        sistema := {| quartos := quartos (sistema w) ++ [quarto];
                      historico_reservas := historico_reservas (sistema w) |};
        saida := saida w |}).

Definition com_reserva (w : Estado) (r : Reserva float) : Estado :=
  {| objetos := objetos w; proximo := proximo w;
     sistema := {| quartos := quartos (sistema w);
                   historico_reservas :=
                     historico_reservas (sistema w) ++ [r] |};
     saida := saida w |}.

Definition Reserva_registrar_reserva (self : Reserva float) : M unit :=
  fun w => (inr tt, com_reserva w self).

Definition exibir_resumo (self : Reserva float) : M unit :=
  u <- gets (fun w => objetos w (unidade self)) ;;
  let tipo := match tipo_quarto u with
              | Some t => nome t
              | None => "N/A"%string
              end in
  print cabecalho_resumo ;;
  print (ImpResumoQuarto (numero_quarto u) tipo) ;;
  print (ImpResumoLocal (localizacao u)) ;;
  print (ImpResumoDias (dias self)) ;;
  print (ImpResumoMinibar (consumo_minibar self)) ;;
  print (ImpResumoValor (valor_total self)) ;;
  print rodape_resumo.

Fixpoint para_cada {A : Type} (l : list A) (corpo : A -> M unit) : M unit :=
  match l with
  | [] => ret tt
  | x :: resto => corpo x ;; para_cada resto corpo
  end.

(** The line of [listar_quartos] for a unit. *)
Definition linha_quarto (u : UnidadeHospedagem float) : Impressao :=
  let tipo := match tipo_quarto u with
              | Some t => nome t
              | None => "NÃO ASSOCIADO"%string
              end in
  let tarifa := match tipo_quarto u with
                | Some t => tarifa_diaria_base t
                | None => 0.0%float
                end in
  ImpQuarto (numero_quarto u) (localizacao u) tipo tarifa.

(** Whether the line of a unit can be printed: its number. *)
Definition numero_imprimivel (w : Estado) (q : Ref) : bool :=
  str_int_ok (numero_quarto (objetos w q)).

Definition listar_quartos : M unit :=
  print cabecalho_quartos ;;
  qs <- gets (fun w => quartos (sistema w)) ;;
  para_cada qs (fun quarto =>
    u <- gets (fun w => objetos w quarto) ;;
    print (linha_quarto u)) ;;
  print rodape_quartos.

Definition selecionar (numero : Z) (w : Estado) : option Ref :=
  find (fun q => (numero_quarto (objetos w q) =? numero)%Z)
       (quartos (sistema w)).

Definition corpo_do_try (numero : Z) (quarto : Ref) (d : Z)
    (minibar ocupacao : float) : M unit :=
  u <- gets (fun w => objetos w quarto) ;;
  valor <- levantar (iniciar_reserva u d minibar ocupacao) ;;
  let nova_reserva :=
    {| unidade := quarto; dias := d; consumo_minibar := minibar;
       taxa_ocupacao := ocupacao; valor_total := valor |} in
  Reserva_registrar_reserva nova_reserva ;;
  print (ImpSucesso numero) ;;
  exibir_resumo nova_reserva.

(** The handlers print the text of the exception, a string already built. *)
Definition clausulas_except (e : Excecao) : M unit :=
  match e with
  | QuartoNaoAssociadoError _ | DiasInvalidosError => print (ImpFalha e)
  | OutraExcecao _ => print (ImpErroInesperado e)
  end.

Definition registrar_reserva (numero : Z) (d : Z) (minibar ocupacao : float)
  : M unit :=
  quarto_selecionado <- gets (selecionar numero) ;;
  match quarto_selecionado with
  | None => print (ImpNaoEncontrado numero)
  | Some quarto =>
      try_except (corpo_do_try numero quarto d minibar ocupacao)
                 clausulas_except
  end.

(** *** Example states *)

(** Rooms 101, a standard room, and 301, without a type. *)
Definition estado_exemplo : Estado :=
  snd ((q101 <- nova_unidade 101 "1º andar, vista mar" ;;
        q301 <- nova_unidade 301 "3º andar, cobertura" ;;
        associar_tipo_quarto q101
          (QuartoStandard 150.00 0.10 50.00)%float ;;
        adicionar_quarto q101 ;;
        adicionar_quarto q301) estado_inicial).

(** A standard room of the given number, registered after room 101, which
    has no type. *)
Definition estado_com_numero (numero : Z) : Estado :=
  snd ((q101 <- nova_unidade 101 "1º andar, vista mar" ;;
        q <- nova_unidade numero "anexo" ;;
        associar_tipo_quarto q (QuartoStandard 150.00 0.10 50.00)%float ;;
        adicionar_quarto q101 ;;
        adicionar_quarto q) estado_inicial).

(** The same with a number of 4301 digits. *)
Definition estado_numero_longo : Estado := estado_com_numero (10 ^ 4300).

End CPython.

(** * Properties *)

(** ** The fare formulas *)

Section Formulas.

Context {num : Type} `{Numero num}.
Local Open Scope num_scope.

(** Both methods, for any arithmetic: one closed expression per branch, the
    operations in the order the source applies them. *)
Lemma calcular_standard_eq (t s l : num) (d : Z) (m o : num) :
  calcular_valor_reserva (QuartoStandard t s l) d m o =
  if (d >? 5)%Z
  then ((t * de_int d) * o + m) * (de_int 1 + s) + l
  else ((t * de_int d) * o + m) * (de_int 1 + s).
Proof. reflexivity. Qed.


End Formulas.

Section PrecoExato.

Local Open Scope Q_scope.

Lemma gtb_true_lt (d k : Z) : (k < d)%Z -> (d >? k)%Z = true.
Proof. intros Hd. apply Z.gtb_lt. exact Hd. Qed.

Lemma gtb_false_le (d k : Z) : (d <= k)%Z -> (d >? k)%Z = false.
Proof.
  intros Hd. destruct (d >? k)%Z eqn:E; [|reflexivity].
  apply Z.gtb_lt in E. lia.
Qed.






End PrecoExato.

Ltac decide_Qle := unfold Qle; simpl; apply Z.leb_le; reflexivity.


(** ** The worked examples in binary64 *)

Section Binary64.

(** The literal reader is the nearest binary64 value on the literals of the
    program. *)
Lemma float_of_literal_exemplos :
  float_of_literal 0.20 = 0.20%float /\
  float_of_literal 0.10 = 0.10%float /\
  float_of_literal 0.15 = 0.15%float /\
  float_of_literal 150.00 = 150%float.
Proof. repeat split; vm_compute; reflexivity. Qed.

(** Both examples of the standard fare come out exact. *)
Lemma binary64_standard_exemplos :
  calcular_valor_reserva
    (QuartoStandard 150%float 0.10%float 50%float) 7 0%float 1%float
  = 1205%float /\
  calcular_valor_reserva
    (QuartoStandard 150%float 0.10%float 50%float) 3 20%float 1%float
  = 517%float.
Proof. split; vm_compute; reflexivity. Qed.

(** The example of the suite fare lands one unit in the last place below
    1626: [1 + 0.15] rounds down, and so does its product with 1440.  The
    difference is 2^-42, far below half a cent. *)
Lemma binary64_suite_exemplo :
  let v := calcular_valor_reserva
             (SuiteMaster 300%float 0.15%float 30%float) 4 0%float 1%float in
  v = 1625.9999999999998%float /\
  exists q, Q_of_float v = Some q /\
            (1626 - q == 1 # (2 ^ 42))%Q /\ (Qabs (q - 1626) < 0.005)%Q.
Proof.
  split; [vm_compute; reflexivity|].
  eexists. split; [vm_compute; reflexivity|].
  split; vm_compute; reflexivity.
Qed.

(** In binary64 the surcharge [base + base * 0.20] is not always the
    rounding of [base * 1.20]: they differ for a base of 3. *)
Lemma binary64_acrescimo_vs_produto :
  (3 + 3 * 0.20)%float = 3.6%float /\
  (3 * 1.20)%float = 3.5999999999999996%float /\
  (3 + 3 * 0.20 =? 3 * 1.20)%float = false.
Proof. repeat split; vm_compute; reflexivity. Qed.

(** The run of [demonstracao] in binary64 bills 3405.5 over three
    reservations, as it does in exact arithmetic. *)
Lemma binary64_demonstracao :
  let w := snd (demonstracao (num:=float) mundo_inicial) in
  map (@valor_total float) (historico_reservas (sistema w)) =
  [517%float; 1205%float; 1683.4999999999998%float] /\
  total_faturado (sistema w) = 3405.5%float /\
  (total_faturado (sistema mundo_demonstracao) == 3405.50)%Q.
Proof. repeat split; vm_compute; reflexivity. Qed.

(** With the rates of [demonstracao], a minibar of 20 and full occupancy, the
    standard fare in binary64 does not decrease from one day to the next over
    a year of stays. *)
Lemma binary64_standard_monotona_um_ano :
  forallb
    (fun d =>
       PrimFloat.leb
         (calcular_valor_reserva
            (QuartoStandard 150%float 0.10%float 50%float) d 20%float 1%float)
         (calcular_valor_reserva
            (QuartoStandard 150%float 0.10%float 50%float) (d + 1)
            20%float 1%float))
    (map Z.of_nat (seq 1 365)) = true.
Proof. vm_compute. reflexivity. Qed.

End Binary64.

(** ** Validation in [iniciar_reserva] *)

Section Validacao.

Context {num : Type} `{Numero num}.

Lemma iniciar_reserva_sem_tipo (u : UnidadeHospedagem num) d m o :
  tipo_quarto u = None ->
  iniciar_reserva u d m o = inl (QuartoNaoAssociadoError (numero_quarto u)).
Proof. intros Ht. unfold iniciar_reserva. rewrite Ht. reflexivity. Qed.

Lemma iniciar_reserva_dias_invalidos (u : UnidadeHospedagem num) t d m o :
  tipo_quarto u = Some t -> (d <= 0)%Z ->
  iniciar_reserva u d m o = inl DiasInvalidosError.
Proof.
  intros Ht Hd. unfold iniciar_reserva. rewrite Ht.
  apply Z.leb_le in Hd. rewrite Hd. reflexivity.
Qed.

Lemma iniciar_reserva_valida (u : UnidadeHospedagem num) t d m o :
  tipo_quarto u = Some t -> (0 < d)%Z ->
  iniciar_reserva u d m o = inr (calcular_valor_reserva t d m o).
Proof.
  intros Ht Hd. unfold iniciar_reserva. rewrite Ht.
  apply Z.leb_gt in Hd. rewrite Hd. reflexivity.
Qed.



End Validacao.


(** ** Booking through the management system *)

Section Reservas.

Context {num : Type} `{Numero num}.

Lemma registrar_reserva_nao_encontrado numero d (m o : num) w :
  selecionar numero w = None ->
  registrar_reserva numero d m o w =
  (inr tt, com_linha w (LinhaQuartoNaoEncontrado numero)).
Proof.
  intros Hs. unfold registrar_reserva, bind, gets. rewrite Hs. reflexivity.
Qed.

Lemma registrar_reserva_encontrado numero d (m o : num) w q :
  selecionar numero w = Some q ->
  registrar_reserva numero d m o w =
  try_except (corpo_do_try numero q d m o) clausulas_except w.
Proof.
  intros Hs. unfold registrar_reserva, bind, gets. rewrite Hs. reflexivity.
Qed.

(** The [try] block raises what [iniciar_reserva] raises, before anything is
    recorded or printed. *)
Lemma corpo_do_try_excecao numero q d (m o : num) w e :
  iniciar_reserva (objetos w q) d m o = inl e ->
  corpo_do_try numero q d m o w = (inl e, w).
Proof.
  intros He. unfold corpo_do_try, bind, gets, levantar. rewrite He.
  reflexivity.
Qed.

Lemma corpo_do_try_sucesso numero q d (m o : num) w t :
  tipo_quarto (objetos w q) = Some t -> (0 < d)%Z ->
  corpo_do_try numero q d m o w =
  (inr tt, mundo_apos_sucesso w numero (reserva_de q t d m o)).
Proof.
  intros Ht Hd. unfold corpo_do_try, bind, gets, levantar.
  erewrite iniciar_reserva_valida by eassumption. reflexivity.
Qed.

Lemma registrar_reserva_sem_tipo numero d (m o : num) w q :
  selecionar numero w = Some q ->
  tipo_quarto (objetos w q) = None ->
  registrar_reserva numero d m o w =
  (inr tt,
   com_linha w (LinhaFalha
                  (QuartoNaoAssociadoError (numero_quarto (objetos w q))))).
Proof.
  intros Hs Ht. erewrite registrar_reserva_encontrado by eassumption.
  unfold try_except.
  erewrite corpo_do_try_excecao
    by (apply iniciar_reserva_sem_tipo; eassumption).
  reflexivity.
Qed.

Lemma registrar_reserva_dias_invalidos numero d (m o : num) w q t :
  selecionar numero w = Some q ->
  tipo_quarto (objetos w q) = Some t -> (d <= 0)%Z ->
  registrar_reserva numero d m o w =
  (inr tt, com_linha w (LinhaFalha DiasInvalidosError)).
Proof.
  intros Hs Ht Hd. erewrite registrar_reserva_encontrado by eassumption.
  unfold try_except.
  erewrite corpo_do_try_excecao
    by (eapply iniciar_reserva_dias_invalidos; eassumption).
  reflexivity.
Qed.

Lemma registrar_reserva_sucesso numero d (m o : num) w q t :
  selecionar numero w = Some q ->
  tipo_quarto (objetos w q) = Some t -> (0 < d)%Z ->
  registrar_reserva numero d m o w =
  (inr tt, mundo_apos_sucesso w numero (reserva_de q t d m o)).
Proof.
  intros Hs Ht Hd. erewrite registrar_reserva_encontrado by eassumption.
  unfold try_except.
  erewrite corpo_do_try_sucesso by eassumption. reflexivity.
Qed.

(** Every request ends in one of the four outcomes, and returns normally. *)
Lemma registrar_reserva_desfecho numero d (m o : num) w :
  exists w', registrar_reserva numero d m o w = (inr tt, w') /\
             Desfecho numero d m o w w'.
Proof.
  destruct (selecionar numero w) as [q|] eqn:Hs.
  - destruct (tipo_quarto (objetos w q)) as [t|] eqn:Ht.
    + destruct (Z.leb_spec d 0) as [Hd|Hd].
      * eexists. split.
        -- eapply registrar_reserva_dias_invalidos; eassumption.
        -- eapply DesfechoDiasInvalidos; eassumption.
      * eexists. split.
        -- eapply registrar_reserva_sucesso; eassumption.
        -- apply DesfechoSucesso; assumption.
    + eexists. split.
      * eapply registrar_reserva_sem_tipo; eassumption.
      * apply DesfechoSemTipo; assumption.
  - eexists. split.
    + apply registrar_reserva_nao_encontrado; assumption.
    + apply DesfechoNaoEncontrado; assumption.
Qed.

End Reservas.

Section Garantias.

Context {num : Type} `{Numero num}.

(** *** Which unit is booked *)



(** Conversely, the unit selected is registered, bears the number, and no
    unit registered before it does. *)
Lemma selecionar_Some_inv numero (w : Mundo num) q :
  selecionar numero w = Some q ->
  exists antes depois,
    quartos (sistema w) = antes ++ q :: depois /\
    (forall r, In r antes -> numero_quarto (objetos w r) <> numero) /\
    numero_quarto (objetos w q) = numero.
Proof.
  unfold selecionar.
  induction (quartos (sistema w)) as [|a l IH]; simpl; [discriminate|].
  destruct (Z.eqb_spec (numero_quarto (objetos w a)) numero) as [E|E].
  - intros [= ->]. exists [], l. simpl. repeat split; tauto.
  - intros Hf. destruct (IH Hf) as (antes & depois & -> & Hantes & Hq).
    exists (a :: antes), depois. simpl. repeat split; trivial.
    intros r [<-|Hr]; auto.
Qed.



(** *** Failures record nothing *)

Lemma desfecho_historico numero d (m o : num) w w' :
  Desfecho numero d m o w w' ->
  historico_reservas (sistema w') = historico_reservas (sistema w) \/
  exists q t, selecionar numero w = Some q /\
              tipo_quarto (objetos w q) = Some t /\ (0 < d)%Z /\
              historico_reservas (sistema w') =
              historico_reservas (sistema w) ++ [reserva_de q t d m o].
Proof.
  intros [Hs|q Hs Ht|q t Hs Ht Hd|q t Hs Ht Hd]; auto.
  right. exists q, t. auto.
Qed.

(** C4. A booking request that fails, because no registered unit bears the
    number, because the unit selected has no associated type, or because
    [dias <= 0], leaves the history of reservations as it was. *)
Theorem C4_falha_preserva_historico :
  forall (numero d : Z) (m o : num) (w : Mundo num),
    (selecionar numero w = None \/
     (exists q, selecionar numero w = Some q /\
                tipo_quarto (objetos w q) = None) \/
     (d <= 0)%Z) ->
    historico_reservas (sistema (snd (registrar_reserva numero d m o w))) =
    historico_reservas (sistema w).
Proof.
  intros numero d m o w Hfalha.
  destruct (registrar_reserva_desfecho numero d m o w) as (w' & -> & Hw').
  simpl.
  destruct (desfecho_historico Hw')
    as [E|(q & t & Hs & Ht & Hd & _)]; [exact E|].
  exfalso. destruct Hfalha as [Hn|[(q' & Hs' & Ht')|Hd']].
  - congruence.
  - rewrite Hs in Hs'. injection Hs' as <-. congruence.
  - lia.
Qed.

End Garantias.

(** ** The billing summary *)

Section Faturamento.

Context {num : Type} `{Numero num}.

Lemma sucessos_app (out : list (Linha num)) (l : Linha num) :
  sucessos (out ++ [l]) =
  (sucessos out + if eh_sucesso l then 1 else 0)%nat.
Proof.
  unfold sucessos. rewrite filter_app, length_app. simpl.
  destruct (eh_sucesso l); reflexivity.
Qed.


(** The loop of [listar_quartos] prints room lines and touches nothing else. *)
Lemma para_cada_imprimir_quarto (qs : list Ref) (w : Mundo num) :
  exists w',
    para_cada qs imprimir_quarto w = (inr tt, w') /\
    sistema w' = sistema w /\ objetos w' = objetos w /\
    sucessos (saida w') = sucessos (saida w).
Proof.
  revert w. induction qs as [|q qs IH]; intros w; simpl.
  - exists w. auto.
  - unfold bind at 1. simpl.
    match goal with
    | |- context [para_cada qs imprimir_quarto ?w1] =>
        destruct (IH w1) as (w' & E & Hs & Ho & Hc)
    end.
    exists w'. rewrite E. repeat split; trivial.
    rewrite Hc. simpl. rewrite sucessos_app. simpl. apply Nat.add_0_r.
Qed.

Lemma listar_quartos_sistema (w : Mundo num) :
  sistema (snd (listar_quartos w)) = sistema w /\
  sucessos (saida (snd (listar_quartos w))) = sucessos (saida w).
Proof.
  destruct (para_cada_imprimir_quarto (quartos (sistema w)) w)
    as (w' & E & Hs & _ & Hc).
  change (listar_quartos w)
    with (para_cada (quartos (sistema w)) imprimir_quarto w).
  rewrite E. simpl. split; assumption.
Qed.




Lemma cliente_bind {A B : Type} (p : M num A) (k : A -> M num B) :
  Cliente p -> (forall a, Cliente (k a)) -> Cliente (bind p k).
Proof.
  intros Hp Hk w Hw. unfold bind. specialize (Hp w Hw).
  destruct (p w) as [[e|a] w1]; simpl in *; [exact Hp|].
  now apply Hk.
Qed.

Lemma cliente_passo {A : Type} (p : M num A) :
  (forall w, Passo w (snd (p w))) -> Cliente p.
Proof. intros Hp w Hw. exact (AlcPasso Hw (Hp w)). Qed.

Lemma cliente_demonstracao : Cliente demonstracao.
Proof.
  unfold demonstracao.
  repeat (apply cliente_bind; [apply cliente_passo; constructor|intros ?]).
  apply cliente_passo; constructor.
Qed.

End Faturamento.

(** ** Later changes to a unit *)

Section Referencias.

Context {num : Type} `{Numero num}.

Lemma associar_tipo_quarto_sistema q (t : TipoDeQuarto num) (w : Mundo num) :
  sistema (snd (associar_tipo_quarto q t w)) = sistema w.
Proof. reflexivity. Qed.

Lemma associar_tipo_quarto_tipo q (t : TipoDeQuarto num) (w : Mundo num) :
  tipo_quarto (objetos (snd (associar_tipo_quarto q t w)) q) = Some t.
Proof. simpl. rewrite Nat.eqb_refl. reflexivity. Qed.

(** The history is append-only: a call of the interface leaves the
    reservations recorded so far in place, unchanged. *)
Lemma passo_historico (w w' : Mundo num) :
  Passo w w' ->
  exists novas,
    historico_reservas (sistema w') = historico_reservas (sistema w) ++ novas.
Proof.
  intros [numero local w0|q tipo w0|q w0|w0|numero d m o w0|w0];
    try (exists []; simpl; rewrite app_nil_r; reflexivity).
  - exists []. destruct (listar_quartos_sistema w0) as [-> _].
    rewrite app_nil_r. reflexivity.
  - destruct (registrar_reserva_desfecho numero d m o w0) as (w1 & -> & Hd).
    simpl. destruct (desfecho_historico Hd) as [E|(q & t & _ & _ & _ & E)].
    + exists []. rewrite app_nil_r. exact E.
    + eexists. exact E.
Qed.



End Referencias.



Lemma alcancavel_mundo_demonstracao : Alcancavel mundo_demonstracao.
Proof. exact (cliente_demonstracao AlcInicial). Qed.



(** ** The properties on the example states *)

Lemma C4_falha_preserva_historico_witness :
  historico_reservas
    (sistema (snd (registrar_reserva 999 2 10 1 mundo_demonstracao))) =
  historico_reservas (sistema mundo_demonstracao) /\
  historico_reservas
    (sistema (snd (registrar_reserva 301 2 10 1 mundo_demonstracao))) =
  historico_reservas (sistema mundo_demonstracao) /\
  historico_reservas
    (sistema (snd (registrar_reserva 101 0 10 1 mundo_demonstracao))) =
  historico_reservas (sistema mundo_demonstracao).
Proof.
  assert (Hn : selecionar 999 mundo_demonstracao = None) by reflexivity.
  assert (Hs : selecionar 301 mundo_demonstracao = Some 3%nat)
    by reflexivity.
  assert (Ht : tipo_quarto (objetos mundo_demonstracao 3%nat) = None)
    by reflexivity.
  assert (Hd : (0 <= 0)%Z) by (apply Z.leb_le; reflexivity).
  split; [|split].
  - exact (@C4_falha_preserva_historico Q _ 999 2 10 1 mundo_demonstracao
             (or_introl Hn)).
  - exact (@C4_falha_preserva_historico Q _ 301 2 10 1 mundo_demonstracao
             (or_intror (or_introl (ex_intro _ 3%nat (conj Hs Ht))))).
  - exact (@C4_falha_preserva_historico Q _ 101 0 10 1 mundo_demonstracao
             (or_intror (or_intror Hd))).
Defined.



(** * Further properties of the code *)

(** ** Listing and summaries *)

Section Listagem.

Context {num : Type} `{Numero num}.


End Listagem.

(** ** Units, registration and lookup *)

Section Consultas.

Context {num : Type} `{Numero num}.

Lemma find_ext_in {A : Type} (p p' : A -> bool) (l : list A) :
  (forall x, In x l -> p x = p' x) -> find p l = find p' l.
Proof.
  induction l as [|a l IH]; intros Hp; simpl; [reflexivity|].
  rewrite <- (Hp a) by (simpl; auto).
  destruct (p a); [reflexivity|].
  apply IH. intros x Hx. apply Hp. simpl. auto.
Qed.

Lemma find_app_um {A : Type} (p : A -> bool) (l : list A) (x : A) :
  find p (l ++ [x]) =
  match find p l with
  | Some y => Some y
  | None => if p x then Some x else None
  end.
Proof.
  induction l as [|a l IH]; simpl; [reflexivity|].
  destruct (p a); [reflexivity|exact IH].
Qed.

Lemma associar_tipo_quarto_numero q (t : TipoDeQuarto num) (w : Mundo num) r :
  numero_quarto (objetos (snd (associar_tipo_quarto q t w)) r) =
  numero_quarto (objetos w r) /\
  localizacao (objetos (snd (associar_tipo_quarto q t w)) r) =
  localizacao (objetos w r).
Proof.
  simpl. destruct (Nat.eqb_spec r q) as [->|_]; split; reflexivity.
Qed.


(** X3. [associar_tipo_quarto] replaces the type of the one unit it is called
    on, whatever type that unit had: the later association wins, the number
    and the location of every unit stay, the type of every other unit stays,
    and a room number selects the same unit after it as before. *)
Theorem X3_associar_tipo_quarto_so_troca_o_tipo :
  forall (q : Ref) (t1 t2 : TipoDeQuarto num) (w : Mundo num),
    let w1 := snd (associar_tipo_quarto q t1 w) in
    let w2 := snd (associar_tipo_quarto q t2 w1) in
    tipo_quarto (objetos w2 q) = Some t2 /\
    (forall r, numero_quarto (objetos w2 r) = numero_quarto (objetos w r) /\
               localizacao (objetos w2 r) = localizacao (objetos w r)) /\
    (forall r, r <> q -> tipo_quarto (objetos w2 r) = tipo_quarto (objetos w r)) /\
    (forall numero, selecionar numero w2 = selecionar numero w) /\
    sistema w2 = sistema w /\ saida w2 = saida w.
Proof.
  intros q t1 t2 w w1 w2.
  assert (Hnum : forall r,
             numero_quarto (objetos w2 r) = numero_quarto (objetos w r) /\
             localizacao (objetos w2 r) = localizacao (objetos w r)).
  { intros r. unfold w2, w1.
    destruct (associar_tipo_quarto_numero q t2
                (snd (associar_tipo_quarto q t1 w)) r) as [-> ->].
    apply associar_tipo_quarto_numero. }
  split; [|split; [exact Hnum|split; [|split; [|split; reflexivity]]]].
  - unfold w2. apply associar_tipo_quarto_tipo.
  - intros r Hr. unfold w2, w1. simpl.
    destruct (Nat.eqb_spec r q) as [E|_]; [contradiction|reflexivity].
  - intros numero. unfold selecionar.
    change (quartos (sistema w2)) with (quartos (sistema w)).
    apply find_ext_in. intros r _.
    destruct (Hnum r) as [-> _]. reflexivity.
Qed.

(** X4. [adicionar_quarto] performs no check of uniqueness and never changes
    what an already registered number selects: after it, a number selects
    the unit it selected before, and, when it selected none, the new unit
    if that bears the number. *)
Theorem X4_adicionar_quarto_e_selecionar :
  forall (q : Ref) (numero : Z) (w : Mundo num),
    let w' := snd (adicionar_quarto q w) in
    selecionar numero w' =
    match selecionar numero w with
    | Some r => Some r
    | None =>
        if (numero_quarto (objetos w q) =? numero)%Z then Some q else None
    end /\
    historico_reservas (sistema w') = historico_reservas (sistema w) /\
    objetos w' = objetos w.
Proof.
  intros q numero w w'. split; [|split; reflexivity].
  exact (find_app_um
           (fun r => (numero_quarto (objetos w r) =? numero)%Z)
           (quartos (sistema w)) q).
Qed.

Lemma registrar_reserva_objetos numero d (m o : num) (w : Mundo num) :
  objetos (snd (registrar_reserva numero d m o w)) = objetos w /\
  quartos (sistema (snd (registrar_reserva numero d m o w))) =
  quartos (sistema w) /\
  proximo (snd (registrar_reserva numero d m o w)) = proximo w.
Proof.
  destruct (registrar_reserva_desfecho numero d m o w) as (w' & -> & Hd).
  simpl. destruct Hd; repeat split; reflexivity.
Qed.



End Consultas.

Lemma X3_associar_tipo_quarto_so_troca_o_tipo_witness :
  let suite : TipoDeQuarto Q := SuiteMaster 300 0.15 30 in
  let padrao : TipoDeQuarto Q := QuartoStandard 150 0.10 50 in
  let w2 := snd (associar_tipo_quarto 0%nat padrao
                   (snd (associar_tipo_quarto 0%nat suite mundo_duplicado))) in
  tipo_quarto (objetos w2 1%nat) = Some suite.
Proof.
  intros suite padrao w2.
  assert (Hr : 1%nat <> 0%nat) by discriminate.
  exact (eq_trans
           (proj1 (proj2 (proj2
              (@X3_associar_tipo_quarto_so_troca_o_tipo Q 0%nat suite
                 padrao mundo_duplicado))) 1%nat Hr)
           eq_refl).
Defined.


(** ** From a new unit to a booking *)

Section NovaUnidade.

Context {num : Type} `{Numero num}.




End NovaUnidade.


(** ** What the history holds *)

Section Historico.

Context {num : Type} `{Numero num}.

Lemma passo_quartos (w w' : Mundo num) :
  Passo w w' ->
  exists novos, quartos (sistema w') = quartos (sistema w) ++ novos.
Proof.
  intros [numero local w0|q tipo w0|q w0|w0|numero d m o w0|w0];
    try (exists []; simpl; rewrite app_nil_r; reflexivity).
  - exists [q]. reflexivity.
  - exists []. destruct (listar_quartos_sistema w0) as [-> _].
    rewrite app_nil_r. reflexivity.
  - exists []. destruct (registrar_reserva_objetos numero d m o w0)
      as (_ & -> & _).
    rewrite app_nil_r. reflexivity.
Qed.

Lemma reserva_regular_quartos (w w' : Mundo num) novos r :
  quartos (sistema w') = quartos (sistema w) ++ novos ->
  ReservaRegular w r -> ReservaRegular w' r.
Proof.
  intros E (Hd & Hin & Ht). repeat split; trivial.
  rewrite E. apply in_or_app. auto.
Qed.

Lemma selecionar_In numero (w : Mundo num) q :
  selecionar numero w = Some q -> In q (quartos (sistema w)).
Proof. unfold selecionar. intros Hs. apply find_some in Hs. tauto. Qed.

Lemma passo_reservas_regulares (w w' : Mundo num) :
  Passo w w' ->
  Forall (ReservaRegular w) (historico_reservas (sistema w)) ->
  Forall (ReservaRegular w') (historico_reservas (sistema w')).
Proof.
  intros Hp Hinv.
  destruct (passo_quartos Hp) as (novos & Eq).
  assert (Hant : Forall (ReservaRegular w') (historico_reservas (sistema w))).
  { eapply Forall_impl; [|exact Hinv].
    intros r. now apply reserva_regular_quartos with novos. }
  destruct Hp as [numero local w0|q tipo w0|q w0|w0|numero d m o w0|w0];
    try exact Hant.
  - destruct (listar_quartos_sistema w0) as [E _]. rewrite E. exact Hant.
  - destruct (registrar_reserva_desfecho numero d m o w0) as (w1 & E & Hd).
    rewrite E in *. simpl in *.
    destruct (desfecho_historico Hd) as [Eh|(q & t & Hs & Ht & Hpos & Eh)];
      rewrite Eh; [exact Hant|].
    apply Forall_app. split; [exact Hant|].
    constructor; [|constructor].
    split; [exact Hpos|]. split.
    + rewrite Eq. apply in_or_app. left. now apply selecionar_In with numero.
    + exists t. reflexivity.
Qed.

(** X7. In every state a client reaches from a fresh system through the
    public interface, each reservation of the history has positive days,
    refers to a unit of the system's list, and stores as its total the fare
    of a room type on its own days, minibar and occupancy. *)
Theorem X7_reservas_do_historico_sao_validas :
  forall w : Mundo num,
    Alcancavel w ->
    Forall (ReservaRegular w) (historico_reservas (sistema w)).
Proof.
  induction 1 as [|w w' _ IH Hp]; [constructor|].
  exact (passo_reservas_regulares Hp IH).
Qed.

(** X8. No call of the interface removes, replaces or reorders a registered
    unit or a recorded reservation: over any sequence of calls both lists
    only grow at the end. *)
Theorem X8_listas_so_crescem :
  forall w w' : Mundo num,
    Passos w w' ->
    exists novos novas,
      quartos (sistema w') = quartos (sistema w) ++ novos /\
      historico_reservas (sistema w') =
      historico_reservas (sistema w) ++ novas.
Proof.
  induction 1 as [w|w w1 w2 Hp _ (qs2 & rs2 & Eq2 & Er2)].
  - exists [], []. rewrite !app_nil_r. auto.
  - destruct (passo_quartos Hp) as (qs1 & Eq1).
    destruct (passo_historico Hp) as (rs1 & Er1).
    exists (qs1 ++ qs2), (rs1 ++ rs2).
    rewrite Eq2, Eq1, Er2, Er1, !app_assoc. auto.
Qed.


End Historico.

Lemma X7_reservas_do_historico_sao_validas_witness :
  Forall (ReservaRegular mundo_demonstracao)
    (historico_reservas (sistema mundo_demonstracao)).
Proof.
  exact (@X7_reservas_do_historico_sao_validas Q _ mundo_demonstracao
           alcancavel_mundo_demonstracao).
Defined.

Lemma X8_listas_so_crescem_witness :
  let w1 := snd (adicionar_quarto 7%nat (@mundo_inicial Q)) in
  let w2 := snd (registrar_reserva 0 3 20 1 w1) in
  exists novos novas,
    quartos (sistema w2) = quartos (sistema (@mundo_inicial Q)) ++ novos /\
    historico_reservas (sistema w2) =
    historico_reservas (sistema (@mundo_inicial Q)) ++ novas.
Proof.
  intros w1 w2.
  exact (@X8_listas_so_crescem Q _ mundo_inicial w2
           (PassosMais (PassoAdicionar 7%nat mundo_inicial)
              (PassosMais (PassoRegistrar 0 3 20 1 w1) (PassosFim w2)))).
Defined.


(** ** The fares, day by day, in exact arithmetic *)

Section Diarias.

Local Open Scope Q_scope.

Lemma inject_Z_diferenca (d1 d2 : Z) :
  inject_Z (d2 - d1) == inject_Z d2 - inject_Z d1.
Proof.
  unfold Z.sub. rewrite inject_Z_plus, inject_Z_opp. ring.
Qed.

Lemma inject_Z_positivo (d : Z) : (0 < d)%Z -> 0 <= inject_Z d.
Proof.
  intros Hd. change 0 with (inject_Z 0). rewrite <- Zle_Qle. lia.
Qed.

Lemma gtb_decide (d k : Z) :
  ((k < d)%Z /\ (d >? k)%Z = true) \/ ((d <= k)%Z /\ (d >? k)%Z = false).
Proof.
  destruct (Z.leb_spec d k) as [Hle|Hgt].
  - right. split; [exact Hle|now apply gtb_false_le].
  - left. split; [exact Hgt|now apply gtb_true_lt].
Qed.

(** X10. With non-negative rate, service fee, cleaning fee, minibar and
    occupancy, the standard fare of a positive stay is never negative. *)
Theorem X10_standard_nao_negativa :
  forall (t s l m o : Q) (d : Z),
    0 <= t -> 0 <= s -> 0 <= l -> 0 <= m -> 0 <= o -> (0 < d)%Z ->
    0 <= calcular_valor_reserva (QuartoStandard t s l) d m o.
Proof.
  intros t s l m o d Ht Hs Hl Hm Ho Hd.
  pose proof (inject_Z_positivo Hd) as HD.
  assert (H1 : 0 <= t * inject_Z d) by nra.
  assert (H2 : 0 <= (t * inject_Z d) * o) by nra.
  assert (H3 : 0 <= ((t * inject_Z d) * o + m) * (1 + s)) by nra.
  rewrite calcular_standard_eq. cbn [soma produto de_int Numero_Q].
  change (inject_Z 1) with 1.
  destruct (d >? 5)%Z; lra.
Qed.

(** X11. The standard fare grows by [tarifa * ocupacao * (1 + taxa)] for
    each further day, and by the cleaning fee once, when the stay passes
    from at most five days to more than five. *)
Theorem X11_standard_por_dia :
  forall (t s l m o : Q) (d1 d2 : Z),
    (d1 <= d2)%Z ->
    ((d2 <= 5)%Z \/ (5 < d1)%Z ->
     calcular_valor_reserva (QuartoStandard t s l) d2 m o ==
     calcular_valor_reserva (QuartoStandard t s l) d1 m o +
     inject_Z (d2 - d1) * (t * o * (1 + s))) /\
    ((d1 <= 5)%Z -> (5 < d2)%Z ->
     calcular_valor_reserva (QuartoStandard t s l) d2 m o ==
     calcular_valor_reserva (QuartoStandard t s l) d1 m o +
     inject_Z (d2 - d1) * (t * o * (1 + s)) + l).
Proof.
  intros t s l m o d1 d2 Hd. rewrite !calcular_standard_eq.
  cbn [soma produto de_int Numero_Q]. change (inject_Z 1) with 1.
  rewrite inject_Z_diferenca.
  destruct (gtb_decide d1 5) as [[H1 ->]|[H1 ->]];
    destruct (gtb_decide d2 5) as [[H2 ->]|[H2 ->]];
    split; try (intros; exfalso; lia); intros; ring.
Qed.



End Diarias.

Lemma X10_standard_nao_negativa_witness :
  (0 <= calcular_valor_reserva (QuartoStandard 150 0.10 50) 7 0 1)%Q.
Proof.
  assert (Ht : (0 <= 150)%Q) by decide_Qle.
  assert (Hs : (0 <= 0.10)%Q) by decide_Qle.
  assert (Hl : (0 <= 50)%Q) by decide_Qle.
  assert (Hm : (0 <= 0)%Q) by decide_Qle.
  assert (Ho : (0 <= 1)%Q) by decide_Qle.
  assert (Hd : (0 < 7)%Z) by reflexivity.
  exact (@X10_standard_nao_negativa 150 0.10 50 0 1 7 Ht Hs Hl Hm Ho Hd).
Defined.

Lemma X11_standard_por_dia_witness :
  (calcular_valor_reserva (QuartoStandard 150 0.10 50) 7 20 1 ==
   calcular_valor_reserva (QuartoStandard 150 0.10 50) 3 20 1 +
   inject_Z (7 - 3) * (150 * 1 * (1 + 0.10)) + 50)%Q.
Proof.
  assert (Hd : (3 <= 7)%Z) by (apply Z.leb_le; reflexivity).
  assert (H1 : (3 <= 5)%Z) by (apply Z.leb_le; reflexivity).
  assert (H2 : (5 < 7)%Z) by reflexivity.
  exact (proj2 (@X11_standard_por_dia 150 0.10 50 20 1 3 7 Hd) H1 H2).
Defined.



(** ** Bookings and the amount billed *)

Section Faturado.

Context {num : Type} `{Numero num}.

Lemma sum_app_um (l : list num) (x : num) : sum (l ++ [x]) = soma (sum l) x.
Proof. unfold sum. rewrite fold_left_app. reflexivity. Qed.

Lemma registrar_reserva_falha_sistema numero d (m o : num) (w : Mundo num) :
  selecionar numero w = None \/
  (exists q, selecionar numero w = Some q /\
             tipo_quarto (objetos w q) = None) \/
  (d <= 0)%Z ->
  sistema (snd (registrar_reserva numero d m o w)) = sistema w.
Proof.
  intros Hfalha.
  destruct (registrar_reserva_desfecho numero d m o w) as (w' & -> & Hw').
  simpl. destruct Hw' as [Hs|q Hs Ht|q t Hs Ht Hd|q t Hs Ht Hd];
    try reflexivity.
  exfalso. destruct Hfalha as [Hn|[(q' & Hs' & Ht')|Hd']].
  - congruence.
  - rewrite Hs in Hs'. injection Hs' as <-. congruence.
  - lia.
Qed.

End Faturado.

(** X14. In exact arithmetic, a successful booking raises the amount billed
    by exactly the fare it recorded and the number of reservations by one; a
    failed request leaves both as they were. *)
Theorem X14_faturamento_acompanha_reservas :
  forall (numero d : Z) (m o : Q) (w : Mundo Q),
    let w' := snd (registrar_reserva numero d m o w) in
    (forall q t,
        selecionar numero w = Some q ->
        tipo_quarto (objetos w q) = Some t -> (0 < d)%Z ->
        (total_faturado (sistema w') ==
         total_faturado (sistema w) + calcular_valor_reserva t d m o)%Q /\
        List.length (historico_reservas (sistema w')) =
        S (List.length (historico_reservas (sistema w)))) /\
    (selecionar numero w = None \/
     (exists q, selecionar numero w = Some q /\
                tipo_quarto (objetos w q) = None) \/
     (d <= 0)%Z ->
     total_faturado (sistema w') = total_faturado (sistema w) /\
     List.length (historico_reservas (sistema w')) =
     List.length (historico_reservas (sistema w))).
Proof.
  intros numero d m o w w'. split.
  - intros q t Hs Ht Hd. unfold w'.
    erewrite registrar_reserva_sucesso by eassumption.
    unfold total_faturado, mundo_apos_sucesso, com_linha, com_reserva.
    cbn [snd sistema historico_reservas].
    rewrite map_app, length_app. cbn [map List.length].
    rewrite sum_app_um.
    split; [reflexivity|apply Nat.add_1_r].
  - intros Hfalha. unfold w'.
    rewrite (@registrar_reserva_falha_sistema Q _ numero d m o w Hfalha).
    auto.
Qed.

Lemma X14_faturamento_acompanha_reservas_witness :
  let suite : TipoDeQuarto Q := SuiteMaster 300.00 0.15 30.00 in
  (total_faturado
     (sistema (snd (registrar_reserva 201 4 50 1 mundo_demonstracao))) ==
   total_faturado (sistema mundo_demonstracao) +
   calcular_valor_reserva suite 4 50 1)%Q /\
  total_faturado
    (sistema (snd (registrar_reserva 201 0 50 1 mundo_demonstracao))) =
  total_faturado (sistema mundo_demonstracao).
Proof.
  intros suite.
  assert (Hs : selecionar 201 mundo_demonstracao = Some 2%nat) by reflexivity.
  assert (Ht : tipo_quarto (objetos mundo_demonstracao 2%nat) = Some suite)
    by reflexivity.
  assert (Hd : (0 < 4)%Z) by reflexivity.
  assert (Hz : (0 <= 0)%Z) by (apply Z.leb_le; reflexivity).
  split.
  - exact (proj1 (proj1 (X14_faturamento_acompanha_reservas 201 4 50 1
                           mundo_demonstracao) 2%nat suite Hs Ht Hd)).
  - exact (proj1 (proj2 (X14_faturamento_acompanha_reservas 201 0 50 1
                           mundo_demonstracao)
                    (or_intror (or_intror Hz)))).
Defined.

(** ** The run of [demonstracao] *)


(** ** What a lookup answers *)

Section Busca.

Context {num : Type} `{Numero num}.

(** X16. The unit [registrar_reserva] selects is in the system's list, bears
    the requested number, and no unit before it in the list does; and
    when none is selected, so that the request is reported as not found, no
    unit of the list bears the number. *)
Theorem X16_selecionar_correto :
  forall (numero : Z) (w : Mundo num),
    (forall q,
        selecionar numero w = Some q ->
        numero_quarto (objetos w q) = numero /\
        exists antes depois,
          quartos (sistema w) = antes ++ q :: depois /\
          forall r, In r antes -> numero_quarto (objetos w r) <> numero) /\
    (selecionar numero w = None ->
     forall r, In r (quartos (sistema w)) ->
               numero_quarto (objetos w r) <> numero).
Proof.
  intros numero w. split.
  - intros q Hs.
    destruct (selecionar_Some_inv _ _ Hs) as (antes & depois & E & Ha & Hq).
    split; [exact Hq|]. exists antes, depois. auto.
  - unfold selecionar. intros Hn r Hr Hnum.
    pose proof (find_none _ _ Hn r Hr) as Hp. simpl in Hp.
    rewrite Hnum, Z.eqb_refl in Hp. discriminate.
Qed.

End Busca.

Lemma X16_selecionar_correto_witness :
  numero_quarto (objetos mundo_duplicado 0%nat) = 101%Z /\
  forall r, In r (quartos (sistema mundo_duplicado)) ->
            numero_quarto (objetos mundo_duplicado r) <> 999%Z.
Proof.
  assert (Hs : selecionar 101 mundo_duplicado = Some 0%nat) by reflexivity.
  assert (Hn : selecionar 999 mundo_duplicado = None) by reflexivity.
  split.
  - exact (proj1 (proj1 (@X16_selecionar_correto Q 101 mundo_duplicado)
                    0%nat Hs)).
  - exact (proj2 (@X16_selecionar_correto Q 999 mundo_duplicado) Hn).
Defined.

(** * The methods under CPython's conversions and prints *)

(** ** The fares on binary64 *)

Section FaresCPython.

Lemma float_de_int_valor (z : Z) (f : float) :
  CPython.float_de_int z = inr f -> f = float_of_Z z.
Proof.
  unfold CPython.float_de_int, float_of_Z.
  destruct (binary_normalize prec emax z 0 false);
    intros E; inversion E; reflexivity.
Qed.

Lemma float_de_int_erro (z : Z) (e : Excecao) :
  CPython.float_de_int z = inl e -> e = CPython.OverflowError.
Proof.
  unfold CPython.float_de_int.
  destruct (binary_normalize prec emax z 0 false);
    intros E; inversion E; reflexivity.
Qed.

(** The conversion succeeds up to the largest integer that rounds to the
    largest finite float, and fails from the next one on. *)
Lemma float_de_int_limite :
  CPython.float_de_int (2 ^ 1024 - 2 ^ 970 - 1) =
  inr 0x1.fffffffffffffp+1023%float /\
  CPython.float_de_int (2 ^ 1024 - 2 ^ 970) = inl CPython.OverflowError /\
  CPython.float_de_int (2 ^ 1024) = inl CPython.OverflowError.
Proof. repeat split; vm_compute; reflexivity. Qed.

Lemma float_of_Z_um : float_of_Z 1 = 1%float.
Proof. vm_compute. reflexivity. Qed.

Lemma float_of_literal_0_20 : float_of_literal 0.20 = 0.20%float.
Proof. vm_compute. reflexivity. Qed.

(** Where the conversion of the days succeeds, the method returns what
    [calcular_valor_reserva] computes on binary64; where it fails, the
    method raises [OverflowError]. *)
Lemma calcular_cpython_valor (t : TipoDeQuarto float) (d : Z) (m o f : float) :
  CPython.float_de_int d = inr f ->
  CPython.calcular_valor_reserva t d m o =
  inr (calcular_valor_reserva t d m o).
Proof.
  intros E. pose proof (float_de_int_valor _ E) as ->.
  destruct t as [tarifa taxa limpeza|tarifa taxa desconto];
    unfold CPython.calcular_valor_reserva, calcular_valor_reserva;
    rewrite E; cbn [soma subtrai produto de_int literal Numero_float];
    rewrite float_of_Z_um, ?float_of_literal_0_20; reflexivity.
Qed.

Lemma calcular_cpython_erro (t : TipoDeQuarto float) (d : Z) (m o : float) e :
  CPython.calcular_valor_reserva t d m o = inl e ->
  e = CPython.OverflowError /\ CPython.float_de_int d = inl e.
Proof.
  destruct t as [tarifa taxa limpeza|tarifa taxa desconto];
    unfold CPython.calcular_valor_reserva;
    destruct (CPython.float_de_int d) as [e'|f] eqn:E;
    intros H; inversion H; subst;
    (split; [exact (float_de_int_erro _ E)|reflexivity]).
Qed.

(** C2, as corrected. [SuiteMaster.calcular_valor_reserva] converts the days
    to a float and returns [((b + b * 0.20) + minibar) * (1 + taxa)] with
    [b = (tarifa * dias) * ocupacao], every operation rounded to binary64 in
    that order, from which the loyalty discount is subtracted exactly when
    [dias > 3].  In exact arithmetic that expression is the claimed
    [(b * 1.20 + minibar) * (1 + taxa)].  With tarifa 300, taxa 0.15 and
    discount 30 it returns 1625.9999999999998 for (4, 0, 1): 1626 less 2^-42,
    which reads 1626.00 at two decimals. *)
Theorem C2_suite_total_binary64 :
  (forall (t s desc : float) (d : Z) (m o f : float),
      (0 < d)%Z -> CPython.float_de_int d = inr f ->
      ((3 < d)%Z ->
       CPython.calcular_valor_reserva (SuiteMaster t s desc) d m o =
       inr ((((t * f) * o + ((t * f) * o) * 0.20) + m) * (1 + s) - desc)%float)
      /\
      ((d <= 3)%Z ->
       CPython.calcular_valor_reserva (SuiteMaster t s desc) d m o =
       inr ((((t * f) * o + ((t * f) * o) * 0.20) + m) * (1 + s))%float)) /\
  (forall (b m s : Q),
      ((b + b * 0.20) + m) * (1 + s) == (b * 1.20 + m) * (1 + s))%Q /\
  CPython.calcular_valor_reserva
    (SuiteMaster 300 0.15 30)%float 4 0%float 1%float =
  inr 1625.9999999999998%float /\
  (exists q, Q_of_float 1625.9999999999998%float = Some q /\
             (1626 - q == 1 # (2 ^ 42))%Q) /\
  duas_casas 1625.9999999999998%float = Some 162600%Z.
Proof.
  split; [|split; [|split; [|split]]].
  - intros t s desc d m o f _ E; split; intros Hd;
      unfold CPython.calcular_valor_reserva; rewrite E.
    + rewrite (gtb_true_lt Hd). reflexivity.
    + rewrite (gtb_false_le Hd). reflexivity.
  - intros b m s. field.
  - vm_compute. reflexivity.
  - eexists. split; vm_compute; reflexivity.
  - vm_compute. reflexivity.
Qed.

End FaresCPython.

Lemma C2_suite_total_binary64_witness :
  CPython.calcular_valor_reserva
    (SuiteMaster 300 0.15 30)%float 4 0%float 1%float =
  inr ((((300 * 4) * 1 + ((300 * 4) * 1) * 0.20) + 0) * (1 + 0.15) - 30)%float.
Proof.
  assert (H0 : (0 < 4)%Z) by reflexivity.
  assert (E : CPython.float_de_int 4 = inr 4%float)
    by (vm_compute; reflexivity).
  assert (H3 : (3 < 4)%Z) by reflexivity.
  exact (proj1 (proj1 C2_suite_total_binary64
                  300%float 0.15%float 30%float 4%Z 0%float 1%float 4%float
                  H0 E) H3).
Defined.

(** The claim of C2 as it was stated fails on the code: the value returned
    for (300, 0.15, 30; 4, 0, 1) is not 1626, and for (1, 0, 0; 3, 0, 1) it
    is not the claimed expression, 3.6 against 3.5999999999999996. *)
Lemma C2_suite_total_counterexample :
  CPython.calcular_valor_reserva
    (SuiteMaster 300 0.15 30)%float 4 0%float 1%float <> inr 1626%float /\
  CPython.calcular_valor_reserva
    (SuiteMaster 1 0 0)%float 3 0%float 1%float <>
  inr ((((1 * 3) * 1) * 1.20 + 0) * (1 + 0))%float.
Proof.
  split; intros E.
  - apply (f_equal (fun r : Resultado float =>
                      match r with
                      | inr v => PrimFloat.eqb v 1626
                      | inl _ => false
                      end)) in E.
    vm_compute in E. discriminate E.
  - apply (f_equal (fun r : Resultado float =>
                      match r with
                      | inr v => PrimFloat.eqb v 3.6
                      | inl _ => false
                      end)) in E.
    vm_compute in E. discriminate E.
Qed.

(** ** Numbers within and beyond the limit of [str] *)

Section LimiteDeStr.

Lemma str_int_ok_curto (z : Z) :
  (Z.abs z < 10 ^ 18)%Z -> CPython.str_int_ok z = true.
Proof.
  intros Hz. unfold CPython.str_int_ok. apply Z.ltb_lt.
  apply Z.lt_trans with (10 ^ 18)%Z; [exact Hz|].
  apply Z.pow_lt_mono_r; [reflexivity| |reflexivity].
  unfold CPython.int_max_str_digits. lia.
Qed.

Lemma str_int_ok_longo (z : Z) :
  (10 ^ CPython.int_max_str_digits <= z)%Z -> CPython.str_int_ok z = false.
Proof.
  intros Hz. unfold CPython.str_int_ok. apply Z.ltb_ge.
  assert (H0 : (0 <= 10 ^ CPython.int_max_str_digits)%Z)
    by (apply Z.pow_nonneg; lia).
  rewrite Z.abs_eq; [exact Hz|].
  exact (Z.le_trans _ _ _ H0 Hz).
Qed.

Lemma limite_seguinte (n : Z) : (n <= n + 1)%Z.
Proof. lia. Qed.

(** A number of at most 18 digits is none of those beyond the limit. *)
Lemma numero_curto_difere (z n : Z) :
  (Z.abs z < 10 ^ 18)%Z -> (10 ^ CPython.int_max_str_digits <= n)%Z ->
  n <> z.
Proof.
  intros Hz Hn E. subst n.
  pose proof (@str_int_ok_curto z Hz) as Hc.
  pose proof (@str_int_ok_longo z Hn) as Hl.
  rewrite Hc in Hl. discriminate Hl.
Qed.

Lemma selecionar_exemplo (n : Z) :
  CPython.selecionar n CPython.estado_exemplo =
  if (101 =? n)%Z then Some 0%nat
  else if (301 =? n)%Z then Some 1%nat else None.
Proof. reflexivity. Qed.

Lemma selecionar_exemplo_nenhum (n : Z) :
  n <> 101%Z -> n <> 301%Z ->
  CPython.selecionar n CPython.estado_exemplo = None.
Proof.
  intros H1 H3. rewrite selecionar_exemplo.
  destruct (Z.eqb_spec 101 n) as [E|_]; [now elim H1|].
  destruct (Z.eqb_spec 301 n) as [E|_]; [now elim H3|].
  reflexivity.
Qed.

Lemma selecionar_com_numero (n : Z) :
  n <> 101%Z ->
  CPython.selecionar n (CPython.estado_com_numero n) = Some 1%nat.
Proof.
  intros H1.
  assert (E : CPython.selecionar n (CPython.estado_com_numero n) =
              if (101 =? n)%Z then Some 0%nat
              else if (n =? n)%Z then Some 1%nat else None) by reflexivity.
  rewrite E, Z.eqb_refl.
  destruct (Z.eqb_spec 101 n) as [E1|_]; [now elim H1|reflexivity].
Qed.

Lemma iniciar_reserva_com_numero (n : Z) :
  CPython.iniciar_reserva (CPython.objetos (CPython.estado_com_numero n) 1%nat)
    3 20%float 1%float = inr 517%float.
Proof. vm_compute. reflexivity. Qed.

Lemma iniciar_cpython_sem_tipo (u : UnidadeHospedagem float) (d : Z)
    (m o : float) :
  tipo_quarto u = None -> CPython.str_int_ok (numero_quarto u) = true ->
  CPython.iniciar_reserva u d m o =
  inl (QuartoNaoAssociadoError (numero_quarto u)).
Proof. unfold CPython.iniciar_reserva. intros -> ->. reflexivity. Qed.

End LimiteDeStr.

(** ** Validation under CPython *)

Section ValidacaoCPython.

(** C3, as corrected. [iniciar_reserva] performs two validations and no
    other: without an associated type it raises [QuartoNaoAssociadoError],
    with one and [dias <= 0] it raises [DiasInvalidosError], and otherwise
    it returns or raises exactly what the type's [calcular_valor_reserva]
    returns or raises on the same arguments.  Two failures of the
    interpreter remain besides the two validation errors: the
    [OverflowError] of [calcular_valor_reserva] when the days do not convert
    to a float, and the [ValueError] of the message of
    [QuartoNaoAssociadoError] when the number of the unit has more than 4300
    digits. *)
Theorem C3_iniciar_reserva_cpython :
  forall (u : UnidadeHospedagem float) (d : Z) (m o : float),
    (tipo_quarto u = None ->
     CPython.str_int_ok (numero_quarto u) = true ->
     CPython.iniciar_reserva u d m o =
     inl (QuartoNaoAssociadoError (numero_quarto u))) /\
    (tipo_quarto u = None ->
     CPython.str_int_ok (numero_quarto u) = false ->
     CPython.iniciar_reserva u d m o = inl CPython.ValueError) /\
    (forall t, tipo_quarto u = Some t -> (d <= 0)%Z ->
               CPython.iniciar_reserva u d m o = inl DiasInvalidosError) /\
    (forall t, tipo_quarto u = Some t -> (0 < d)%Z ->
               CPython.iniciar_reserva u d m o =
               CPython.calcular_valor_reserva t d m o) /\
    (forall t f, CPython.float_de_int d = inr f ->
                 CPython.calcular_valor_reserva t d m o =
                 inr (calcular_valor_reserva t d m o)) /\
    (forall t e, CPython.calcular_valor_reserva t d m o = inl e ->
                 e = CPython.OverflowError /\
                 CPython.float_de_int d = inl CPython.OverflowError) /\
    (forall e, CPython.iniciar_reserva u d m o = inl e ->
               e = QuartoNaoAssociadoError (numero_quarto u) \/
               e = DiasInvalidosError \/
               e = CPython.OverflowError \/
               e = CPython.ValueError).
Proof.
  intros u d m o. unfold CPython.iniciar_reserva.
  split; [|split; [|split; [|split; [|split; [|split]]]]].
  - intros -> ->. reflexivity.
  - intros -> ->. reflexivity.
  - intros t -> Hd. apply Z.leb_le in Hd. rewrite Hd. reflexivity.
  - intros t -> Hd. apply Z.leb_gt in Hd. rewrite Hd. reflexivity.
  - intros t f E. exact (@calcular_cpython_valor t d m o f E).
  - intros t e E. destruct (@calcular_cpython_erro t d m o e E) as [-> E'].
    split; [reflexivity|exact E'].
  - intros e. destruct (tipo_quarto u) as [t|].
    + destruct (d <=? 0)%Z.
      * intros [= <-]. auto.
      * intros E. destruct (@calcular_cpython_erro t d m o e E) as [-> _].
        auto.
    + destruct (CPython.str_int_ok (numero_quarto u)); intros [= <-]; auto.
Qed.

End ValidacaoCPython.

Lemma C3_iniciar_reserva_cpython_witness :
  let sem_tipo : UnidadeHospedagem float :=
    {| numero_quarto := 301; localizacao := "cobertura"; tipo_quarto := None |} in
  let numero_longo : UnidadeHospedagem float :=
    {| numero_quarto := 10 ^ 4300; localizacao := "anexo";
       tipo_quarto := None |} in
  let suite : TipoDeQuarto float := (SuiteMaster 300 0.15 30)%float in
  let com_tipo : UnidadeHospedagem float :=
    {| numero_quarto := 201; localizacao := "vista mar";
       tipo_quarto := Some suite |} in
  CPython.iniciar_reserva sem_tipo 2 10%float 1%float =
  inl (QuartoNaoAssociadoError 301) /\
  CPython.iniciar_reserva numero_longo 2 10%float 1%float =
  inl CPython.ValueError /\
  CPython.iniciar_reserva com_tipo 0 10%float 1%float =
  inl DiasInvalidosError /\
  CPython.iniciar_reserva com_tipo 4 50%float 1%float =
  CPython.calcular_valor_reserva suite 4 50%float 1%float /\
  CPython.calcular_valor_reserva suite 4 50%float 1%float =
  inr (calcular_valor_reserva suite 4 50%float 1%float) /\
  CPython.float_de_int (2 ^ 1024) = inl CPython.OverflowError.
Proof.
  intros sem_tipo numero_longo suite com_tipo.
  assert (Hok : CPython.str_int_ok 301 = true)
    by (apply str_int_ok_curto; reflexivity).
  assert (Hlongo : CPython.str_int_ok (10 ^ 4300) = false)
    by (apply str_int_ok_longo; apply Z.le_refl).
  assert (Hle : (0 <= 0)%Z) by (apply Z.leb_le; reflexivity).
  assert (Hlt : (0 < 4)%Z) by reflexivity.
  assert (E4 : CPython.float_de_int 4 = inr 4%float)
    by (vm_compute; reflexivity).
  assert (Eg : CPython.calcular_valor_reserva suite (2 ^ 1024) 0%float 1%float
               = inl CPython.OverflowError) by (vm_compute; reflexivity).
  split; [|split; [|split; [|split; [|split]]]].
  - exact (proj1 (C3_iniciar_reserva_cpython sem_tipo 2 10%float 1%float)
             eq_refl Hok).
  - exact (proj1 (proj2
             (C3_iniciar_reserva_cpython numero_longo 2 10%float 1%float))
             eq_refl Hlongo).
  - exact (proj1 (proj2 (proj2
             (C3_iniciar_reserva_cpython com_tipo 0 10%float 1%float)))
             suite eq_refl Hle).
  - exact (proj1 (proj2 (proj2 (proj2
             (C3_iniciar_reserva_cpython com_tipo 4 50%float 1%float))))
             suite eq_refl Hlt).
  - exact (proj1 (proj2 (proj2 (proj2 (proj2
             (C3_iniciar_reserva_cpython com_tipo 4 50%float 1%float)))))
             suite 4%float E4).
  - exact (proj2 (proj1 (proj2 (proj2 (proj2 (proj2 (proj2
             (C3_iniciar_reserva_cpython com_tipo (2 ^ 1024)
                0%float 1%float))))))
             suite CPython.OverflowError Eg)).
Defined.

(** The claim of C3 as it was stated fails on the code: on a unit with an
    associated type and 2^1024 days, which are positive, [iniciar_reserva]
    raises [OverflowError], a failure that is neither of the two. *)
Lemma C3_iniciar_reserva_counterexample :
  let com_tipo : UnidadeHospedagem float :=
    {| numero_quarto := 101; localizacao := "vista mar";
       tipo_quarto := Some (QuartoStandard 150 0.10 50)%float |} in
  (0 < 2 ^ 1024)%Z /\
  CPython.iniciar_reserva com_tipo (2 ^ 1024) 0%float 1%float =
  inl CPython.OverflowError /\
  CPython.OverflowError <> QuartoNaoAssociadoError 101 /\
  CPython.OverflowError <> DiasInvalidosError.
Proof.
  intros com_tipo. split; [reflexivity|]. split; [vm_compute; reflexivity|].
  split; discriminate.
Qed.

(** ** Monotonicity of the standard fare fails on binary64 *)


(** ** Booking under CPython *)

Ltac simpl_estado :=
  unfold CPython.com_linha, CPython.com_reserva;
  cbn [CPython.objetos CPython.saida CPython.sistema CPython.proximo
       CPython.imprimivel CPython.rodape_resumo CPython.cabecalho_resumo
       CPython.rodape_quartos CPython.cabecalho_quartos
       quartos historico_reservas snd fst].

Section ReservasCPython.

Local Opaque CPython.str_int_ok.

Lemma print_cpython (i : CPython.Impressao) (w : CPython.Estado) :
  CPython.print i w =
  if CPython.imprimivel i then (inr tt, CPython.com_linha w i)
  else (inl CPython.ValueError, w).
Proof. reflexivity. Qed.

(** The handlers return normally and print one line. *)
Lemma clausulas_except_cpython (e : Excecao) (w : CPython.Estado) :
  CPython.clausulas_except e w =
  (inr tt,
   CPython.com_linha w
     match e with
     | OutraExcecao _ => CPython.ImpErroInesperado e
     | _ => CPython.ImpFalha e
     end).
Proof. destruct e; reflexivity. Qed.

Lemma registrar_cpython_nao_encontrado numero d m o (w : CPython.Estado) :
  CPython.selecionar numero w = None ->
  CPython.registrar_reserva numero d m o w =
  CPython.print (CPython.ImpNaoEncontrado numero) w.
Proof.
  intros Hs. unfold CPython.registrar_reserva, CPython.bind, CPython.gets.
  rewrite Hs. reflexivity.
Qed.

Lemma registrar_cpython_encontrado numero d m o (w : CPython.Estado) q :
  CPython.selecionar numero w = Some q ->
  CPython.registrar_reserva numero d m o w =
  CPython.try_except (CPython.corpo_do_try numero q d m o)
    CPython.clausulas_except w.
Proof.
  intros Hs. unfold CPython.registrar_reserva, CPython.bind, CPython.gets.
  rewrite Hs. reflexivity.
Qed.

Lemma corpo_cpython_excecao numero q d m o (w : CPython.Estado) e :
  CPython.iniciar_reserva (CPython.objetos w q) d m o = inl e ->
  CPython.corpo_do_try numero q d m o w = (inl e, w).
Proof.
  intros E. unfold CPython.corpo_do_try, CPython.bind, CPython.gets,
    CPython.levantar. rewrite E. reflexivity.
Qed.

Lemma bind_gets_cpython {A B : Type} (f : CPython.Estado -> A)
    (k : A -> CPython.M B) (w : CPython.Estado) :
  CPython.bind (CPython.gets f) k w = k (f w) w.
Proof. reflexivity. Qed.

Lemma bind_print_ok {B : Type} (i : CPython.Impressao)
    (k : unit -> CPython.M B) (w : CPython.Estado) :
  CPython.imprimivel i = true ->
  CPython.bind (CPython.print i) k w = k tt (CPython.com_linha w i).
Proof.
  intros Hi. unfold CPython.bind, CPython.print. rewrite Hi. reflexivity.
Qed.

Lemma bind_print_erro {B : Type} (i : CPython.Impressao)
    (k : unit -> CPython.M B) (w : CPython.Estado) :
  CPython.imprimivel i = false ->
  CPython.bind (CPython.print i) k w = (inl CPython.ValueError, w).
Proof.
  intros Hi. unfold CPython.bind, CPython.print. rewrite Hi. reflexivity.
Qed.

(** The seven lines of a summary. *)
Lemma exibir_resumo_cpython (r : Reserva float) (w : CPython.Estado) :
  let u := CPython.objetos w (unidade r) in
  CPython.str_int_ok (numero_quarto u) = true ->
  CPython.str_int_ok (dias r) = true ->
  CPython.exibir_resumo r w =
  (inr tt,
   {| CPython.objetos := CPython.objetos w;
      CPython.proximo := CPython.proximo w;
      CPython.sistema := CPython.sistema w;
      CPython.saida :=
        CPython.saida w ++
        [CPython.cabecalho_resumo;
         CPython.ImpResumoQuarto (numero_quarto u)
           match tipo_quarto u with
           | Some t => nome t
           | None => "N/A"%string
           end;
         CPython.ImpResumoLocal (localizacao u);
         CPython.ImpResumoDias (dias r);
         CPython.ImpResumoMinibar (consumo_minibar r);
         CPython.ImpResumoValor (valor_total r);
         CPython.rodape_resumo] |}).
Proof.
  intros u Hn Hd. unfold CPython.exibir_resumo.
  rewrite bind_gets_cpython. fold u.
  rewrite bind_print_ok by reflexivity.
  rewrite bind_print_ok by exact Hn.
  rewrite bind_print_ok by reflexivity.
  rewrite bind_print_ok by exact Hd.
  rewrite bind_print_ok by reflexivity.
  rewrite bind_print_ok by reflexivity.
  rewrite print_cpython.
  simpl_estado. rewrite <- !app_assoc. reflexivity.
Qed.

(** The output of the summary only grows, whether it returns or raises, and
    the rest of the state stays. *)
Lemma exibir_resumo_cpython_saida (r : Reserva float) (w : CPython.Estado) :
  exists l,
    CPython.saida (snd (CPython.exibir_resumo r w)) = CPython.saida w ++ l /\
    CPython.sistema (snd (CPython.exibir_resumo r w)) = CPython.sistema w /\
    CPython.objetos (snd (CPython.exibir_resumo r w)) = CPython.objetos w.
Proof.
  unfold CPython.exibir_resumo. rewrite bind_gets_cpython.
  rewrite bind_print_ok by reflexivity.
  destruct (CPython.str_int_ok
              (numero_quarto (CPython.objetos w (unidade r)))) eqn:Hn.
  - rewrite bind_print_ok by exact Hn.
    rewrite bind_print_ok by reflexivity.
    destruct (CPython.str_int_ok (dias r)) eqn:Hd.
    + rewrite bind_print_ok by exact Hd.
      rewrite bind_print_ok by reflexivity.
      rewrite bind_print_ok by reflexivity.
      rewrite print_cpython.
      simpl_estado.
      eexists. rewrite <- !app_assoc. repeat split.
    + rewrite bind_print_erro by exact Hd.
      simpl_estado.
      eexists. rewrite <- !app_assoc. repeat split.
  - rewrite bind_print_erro by exact Hn.
    simpl_estado.
    eexists. repeat split.
Qed.

Lemma selecionar_cpython_numero numero (w : CPython.Estado) q :
  CPython.selecionar numero w = Some q ->
  numero_quarto (CPython.objetos w q) = numero.
Proof.
  unfold CPython.selecionar. intros Hs. apply find_some in Hs.
  destruct Hs as [_ Hq]. now apply Z.eqb_eq in Hq.
Qed.

(** The [try] block once [iniciar_reserva] has returned: the reservation is
    recorded first, the confirmation and the summary are printed after. *)
Lemma corpo_cpython_valor numero q d m o (w : CPython.Estado) v :
  CPython.iniciar_reserva (CPython.objetos w q) d m o = inr v ->
  let r := {| unidade := q; dias := d; consumo_minibar := m;
              taxa_ocupacao := o; valor_total := v |} in
  CPython.corpo_do_try numero q d m o w =
  if CPython.str_int_ok numero
  then CPython.exibir_resumo r
         (CPython.com_linha (CPython.com_reserva w r)
            (CPython.ImpSucesso numero))
  else (inl CPython.ValueError, CPython.com_reserva w r).
Proof.
  intros E r. unfold CPython.corpo_do_try.
  rewrite bind_gets_cpython.
  unfold CPython.bind at 1, CPython.levantar. rewrite E.
  unfold CPython.bind at 1, CPython.Reserva_registrar_reserva.
  fold r. destruct (CPython.str_int_ok numero) eqn:Hn.
  - rewrite bind_print_ok by exact Hn. reflexivity.
  - rewrite bind_print_erro by exact Hn. reflexivity.
Qed.

(** Whatever the [try] block does, [registrar_reserva] on a unit found
    returns normally with a longer output. *)
Lemma registrar_cpython_encontrado_normal numero d m o
    (w : CPython.Estado) q :
  CPython.selecionar numero w = Some q ->
  fst (CPython.registrar_reserva numero d m o w) = inr tt /\
  (List.length (CPython.saida w) <
   List.length (CPython.saida (snd (CPython.registrar_reserva numero d m o w))))%nat.
Proof.
  intros Hs. erewrite registrar_cpython_encontrado by eassumption.
  unfold CPython.try_except.
  destruct (CPython.iniciar_reserva (CPython.objetos w q) d m o)
    as [e|v] eqn:E.
  - erewrite corpo_cpython_excecao by eassumption.
    rewrite clausulas_except_cpython. simpl_estado.
    rewrite length_app. simpl. split; [reflexivity|lia].
  - erewrite corpo_cpython_valor by eassumption.
    destruct (CPython.str_int_ok numero) eqn:Hn.
    + match goal with
      | |- context [CPython.exibir_resumo ?r ?w1] =>
          destruct (exibir_resumo_cpython_saida r w1) as (l & Hl & _ & _);
          destruct (CPython.exibir_resumo r w1) as [[e|[]] w2] eqn:Er
      end.
      * rewrite clausulas_except_cpython. simpl_estado.
        simpl in Hl. rewrite Hl. unfold CPython.com_linha. simpl.
        rewrite !length_app. simpl. split; [reflexivity|lia].
      * simpl in Hl. simpl. rewrite Hl. unfold CPython.com_linha. simpl.
        rewrite !length_app. simpl. split; [reflexivity|lia].
    + rewrite clausulas_except_cpython. simpl_estado.
      rewrite length_app. simpl. split; [reflexivity|lia].
Qed.

(** C5, as corrected. [registrar_reserva] returns normally, with a report
    printed, whenever a registered unit bears the number or the number has
    at most 4300 digits.  Whatever is raised inside its [try] block is
    caught: the two validation errors are reported as a failure of the
    booking, and any other exception, the [OverflowError] of the fare and the
    [ValueError] of an f-string among them, as an unexpected error; when
    [iniciar_reserva] raised, nothing else changes.  The report of a room
    not found is printed outside the [try] block: for a number of more than
    4300 digits that no registered unit bears, its [ValueError] reaches the
    caller. *)
Theorem C5_registrar_reserva_cpython :
  forall (numero d : Z) (m o : float) (w : CPython.Estado),
    let r := CPython.registrar_reserva numero d m o w in
    (CPython.selecionar numero w <> None \/
     CPython.str_int_ok numero = true ->
     fst r = inr tt /\
     (List.length (CPython.saida w) <
      List.length (CPython.saida (snd r)))%nat) /\
    (CPython.selecionar numero w = None ->
     CPython.str_int_ok numero = true ->
     r = (inr tt, CPython.com_linha w (CPython.ImpNaoEncontrado numero))) /\
    (CPython.selecionar numero w = None ->
     CPython.str_int_ok numero = false ->
     r = (inl CPython.ValueError, w)) /\
    (forall q e,
        CPython.selecionar numero w = Some q ->
        CPython.iniciar_reserva (CPython.objetos w q) d m o = inl e ->
        r = (inr tt,
             CPython.com_linha w
               match e with
               | OutraExcecao _ => CPython.ImpErroInesperado e
               | _ => CPython.ImpFalha e
               end)) /\
    (forall q v,
        CPython.selecionar numero w = Some q ->
        CPython.iniciar_reserva (CPython.objetos w q) d m o = inr v ->
        CPython.str_int_ok numero = false ->
        r = (inr tt,
             CPython.com_linha
               (CPython.com_reserva w
                  {| unidade := q; dias := d; consumo_minibar := m;
                     taxa_ocupacao := o; valor_total := v |})
               (CPython.ImpErroInesperado CPython.ValueError))) /\
    (forall q v,
        CPython.selecionar numero w = Some q ->
        CPython.iniciar_reserva (CPython.objetos w q) d m o = inr v ->
        CPython.str_int_ok numero = true ->
        CPython.str_int_ok d = true ->
        let u := CPython.objetos w q in
        let nova :=
          {| unidade := q; dias := d; consumo_minibar := m;
             taxa_ocupacao := o; valor_total := v |} in
        r = (inr tt,
             {| CPython.objetos := CPython.objetos w;
                CPython.proximo := CPython.proximo w;
                CPython.sistema := CPython.sistema (CPython.com_reserva w nova);
                CPython.saida :=
                  CPython.saida w ++
                  [CPython.ImpSucesso numero;
                   CPython.cabecalho_resumo;
                   CPython.ImpResumoQuarto numero
                     match tipo_quarto u with
                     | Some t => nome t
                     | None => "N/A"%string
                     end;
                   CPython.ImpResumoLocal (localizacao u);
                   CPython.ImpResumoDias d;
                   CPython.ImpResumoMinibar m;
                   CPython.ImpResumoValor v;
                   CPython.rodape_resumo] |})).
Proof.
  intros numero d m o w r. unfold r.
  split; [|split; [|split; [|split; [|split]]]].
  - intros [Hs|Hn].
    + destruct (CPython.selecionar numero w) as [q|] eqn:E;
        [|contradiction].
      now apply registrar_cpython_encontrado_normal with q.
    + destruct (CPython.selecionar numero w) as [q|] eqn:E.
      * now apply registrar_cpython_encontrado_normal with q.
      * erewrite registrar_cpython_nao_encontrado by eassumption.
        rewrite print_cpython. cbn [CPython.imprimivel]. rewrite Hn.
        simpl_estado. rewrite length_app. simpl. split; [reflexivity|lia].
  - intros Hs Hn. erewrite registrar_cpython_nao_encontrado by eassumption.
    rewrite print_cpython. cbn [CPython.imprimivel]. rewrite Hn. reflexivity.
  - intros Hs Hn. erewrite registrar_cpython_nao_encontrado by eassumption.
    rewrite print_cpython. cbn [CPython.imprimivel]. rewrite Hn. reflexivity.
  - intros q e Hs E. erewrite registrar_cpython_encontrado by eassumption.
    unfold CPython.try_except.
    erewrite corpo_cpython_excecao by eassumption.
    apply clausulas_except_cpython.
  - intros q v Hs E Hn. erewrite registrar_cpython_encontrado by eassumption.
    unfold CPython.try_except.
    erewrite corpo_cpython_valor by eassumption. rewrite Hn.
    apply clausulas_except_cpython.
  - intros q v Hs E Hn Hd.
    pose proof (selecionar_cpython_numero _ _ Hs) as Hq.
    erewrite registrar_cpython_encontrado by eassumption.
    unfold CPython.try_except.
    erewrite corpo_cpython_valor by eassumption. rewrite Hn.
    rewrite exibir_resumo_cpython.
    + simpl_estado. cbn [unidade dias consumo_minibar taxa_ocupacao
                         valor_total].
      rewrite Hq. rewrite <- !app_assoc. reflexivity.
    + simpl_estado. cbn [unidade]. rewrite Hq. exact Hn.
    + exact Hd.
Qed.

End ReservasCPython.

Lemma C5_registrar_reserva_cpython_witness :
  let w := CPython.estado_exemplo in
  let longo := CPython.estado_numero_longo in
  (fst (CPython.registrar_reserva 101 3 20%float 1%float w) = inr tt /\
   (List.length (CPython.saida w) <
    List.length
      (CPython.saida
         (snd (CPython.registrar_reserva 101 3 20%float 1%float w))))%nat) /\
  CPython.registrar_reserva 999 3 20%float 1%float w =
  (inr tt, CPython.com_linha w (CPython.ImpNaoEncontrado 999)) /\
  CPython.registrar_reserva (10 ^ 4300 + 1) 3 20%float 1%float w =
  (inl CPython.ValueError, w) /\
  CPython.registrar_reserva 301 3 20%float 1%float w =
  (inr tt,
   CPython.com_linha w (CPython.ImpFalha (QuartoNaoAssociadoError 301))) /\
  CPython.registrar_reserva 101 0 20%float 1%float w =
  (inr tt, CPython.com_linha w (CPython.ImpFalha DiasInvalidosError)) /\
  CPython.registrar_reserva 101 (2 ^ 1024) 20%float 1%float w =
  (inr tt,
   CPython.com_linha w (CPython.ImpErroInesperado CPython.OverflowError)) /\
  CPython.registrar_reserva (10 ^ 4300) 3 20%float 1%float longo =
  (inr tt,
   CPython.com_linha
     (CPython.com_reserva longo
        {| unidade := 1%nat; dias := 3; consumo_minibar := 20%float;
           taxa_ocupacao := 1%float; valor_total := 517%float |})
     (CPython.ImpErroInesperado CPython.ValueError)) /\
  CPython.saida (snd (CPython.registrar_reserva 101 3 20%float 1%float w)) =
  CPython.saida w ++
  [CPython.ImpSucesso 101; CPython.cabecalho_resumo;
   CPython.ImpResumoQuarto 101 "Standard";
   CPython.ImpResumoLocal "1º andar, vista mar";
   CPython.ImpResumoDias 3; CPython.ImpResumoMinibar 20%float;
   CPython.ImpResumoValor 517%float; CPython.rodape_resumo].
Proof.
  intros w longo.
  assert (Hok101 : CPython.str_int_ok 101 = true)
    by (apply str_int_ok_curto; reflexivity).
  assert (Hok301 : CPython.str_int_ok 301 = true)
    by (apply str_int_ok_curto; reflexivity).
  assert (Hok999 : CPython.str_int_ok 999 = true)
    by (apply str_int_ok_curto; reflexivity).
  assert (Hok3 : CPython.str_int_ok 3 = true)
    by (apply str_int_ok_curto; reflexivity).
  assert (Hlongo : CPython.str_int_ok (10 ^ 4300) = false)
    by (apply str_int_ok_longo; apply Z.le_refl).
  assert (Hlongo1 : CPython.str_int_ok (10 ^ 4300 + 1) = false)
    by (apply str_int_ok_longo; apply limite_seguinte).
  assert (S101 : CPython.selecionar 101 w = Some 0%nat)
    by (vm_compute; reflexivity).
  assert (S301 : CPython.selecionar 301 w = Some 1%nat)
    by (vm_compute; reflexivity).
  assert (S999 : CPython.selecionar 999 w = None)
    by (vm_compute; reflexivity).
  assert (Snone : CPython.selecionar (10 ^ 4300 + 1) w = None)
    by (apply selecionar_exemplo_nenhum;
        apply numero_curto_difere;
        solve [reflexivity | apply limite_seguinte]).
  assert (Slongo : CPython.selecionar (10 ^ 4300) longo = Some 1%nat)
    by (apply selecionar_com_numero;
        apply numero_curto_difere; [reflexivity|apply Z.le_refl]).
  assert (I301 : CPython.iniciar_reserva (CPython.objetos w 1%nat)
                   3 20%float 1%float = inl (QuartoNaoAssociadoError 301))
    by (exact (@iniciar_cpython_sem_tipo (CPython.objetos w 1%nat)
                 3 20%float 1%float eq_refl Hok301)).
  assert (I0 : CPython.iniciar_reserva (CPython.objetos w 0%nat)
                 0 20%float 1%float = inl DiasInvalidosError)
    by (vm_compute; reflexivity).
  assert (Ig : CPython.iniciar_reserva (CPython.objetos w 0%nat)
                 (2 ^ 1024) 20%float 1%float = inl CPython.OverflowError)
    by (vm_compute; reflexivity).
  assert (I3 : CPython.iniciar_reserva (CPython.objetos w 0%nat)
                 3 20%float 1%float = inr 517%float)
    by (vm_compute; reflexivity).
  assert (Il : CPython.iniciar_reserva (CPython.objetos longo 1%nat)
                 3 20%float 1%float = inr 517%float)
    by (apply iniciar_reserva_com_numero).
  split; [|split; [|split; [|split; [|split; [|split; [|split]]]]]].
  - exact (proj1 (C5_registrar_reserva_cpython 101 3 20%float 1%float w)
             (or_intror Hok101)).
  - exact (proj1 (proj2
             (C5_registrar_reserva_cpython 999 3 20%float 1%float w))
             S999 Hok999).
  - exact (proj1 (proj2 (proj2
             (C5_registrar_reserva_cpython (10 ^ 4300 + 1) 3
                20%float 1%float w)))
             Snone Hlongo1).
  - exact (proj1 (proj2 (proj2 (proj2
             (C5_registrar_reserva_cpython 301 3 20%float 1%float w))))
             1%nat (QuartoNaoAssociadoError 301) S301 I301).
  - exact (proj1 (proj2 (proj2 (proj2
             (C5_registrar_reserva_cpython 101 0 20%float 1%float w))))
             0%nat DiasInvalidosError S101 I0).
  - exact (proj1 (proj2 (proj2 (proj2
             (C5_registrar_reserva_cpython 101 (2 ^ 1024)
                20%float 1%float w))))
             0%nat CPython.OverflowError S101 Ig).
  - exact (proj1 (proj2 (proj2 (proj2 (proj2
             (C5_registrar_reserva_cpython (10 ^ 4300) 3
                20%float 1%float longo)))))
             1%nat 517%float Slongo Il Hlongo).
  - exact (f_equal (fun r => CPython.saida (snd r))
             (proj2 (proj2 (proj2 (proj2 (proj2
                (C5_registrar_reserva_cpython 101 3 20%float 1%float w)))))
                0%nat 517%float S101 I3 Hok101 Hok3)).
Defined.

(** The claim of C5 as it was stated fails on the code: on a fresh system a
    request for room 10^4300, a number of 4301 digits that no unit bears,
    raises [ValueError] to the caller. *)
Lemma C5_registrar_reserva_counterexample :
  CPython.selecionar (10 ^ 4300) CPython.estado_inicial = None /\
  fst (CPython.registrar_reserva (10 ^ 4300) 1 0%float 1%float
         CPython.estado_inicial) = inl CPython.ValueError /\
  inl CPython.ValueError <> (inr tt : Resultado unit).
Proof.
  split; [reflexivity|]. split; [|discriminate].
  rewrite registrar_cpython_nao_encontrado by reflexivity.
  rewrite print_cpython. cbn [CPython.imprimivel].
  rewrite str_int_ok_longo by apply Z.le_refl. reflexivity.
Qed.

(** ** Listing under CPython *)

Section ListagemCPython.

Local Opaque CPython.str_int_ok.

Lemma com_linhas_com_linha (w : CPython.Estado) l i :
  CPython.com_linha (CPython.com_linhas w l) i =
  CPython.com_linhas w (l ++ [i]).
Proof.
  unfold CPython.com_linha, CPython.com_linhas. simpl.
  rewrite app_assoc. reflexivity.
Qed.

Lemma imprimir_quarto_cpython (w : CPython.Estado) l q :
  CPython.bind (CPython.gets (fun w => CPython.objetos w q))
    (fun u => CPython.print (CPython.linha_quarto u))
    (CPython.com_linhas w l) =
  if CPython.numero_imprimivel w q
  then (inr tt,
        CPython.com_linhas w
          (l ++ [CPython.linha_quarto (CPython.objetos w q)]))
  else (inl CPython.ValueError, CPython.com_linhas w l).
Proof.
  rewrite bind_gets_cpython, print_cpython. unfold CPython.numero_imprimivel.
  cbn [CPython.com_linhas CPython.objetos CPython.linha_quarto
       CPython.imprimivel].
  destruct (CPython.str_int_ok (numero_quarto (CPython.objetos w q)));
    [|reflexivity].
  rewrite <- com_linhas_com_linha. reflexivity.
Qed.

Lemma para_cada_cpython_ok (qs : list Ref) (w : CPython.Estado) l :
  forallb (CPython.numero_imprimivel w) qs = true ->
  CPython.para_cada qs
    (fun quarto =>
       CPython.bind (CPython.gets (fun w => CPython.objetos w quarto))
         (fun u => CPython.print (CPython.linha_quarto u)))
    (CPython.com_linhas w l) =
  (inr tt,
   CPython.com_linhas w
     (l ++ map (fun q => CPython.linha_quarto (CPython.objetos w q)) qs)).
Proof.
  revert l. induction qs as [|q qs IH]; intros l Hqs; simpl.
  - rewrite app_nil_r. reflexivity.
  - simpl in Hqs. apply andb_prop in Hqs as [Hq Hqs].
    unfold CPython.bind at 1. rewrite imprimir_quarto_cpython, Hq.
    rewrite IH by assumption. rewrite <- app_assoc. reflexivity.
Qed.

Lemma para_cada_cpython_erro (antes depois : list Ref) q
    (w : CPython.Estado) l :
  forallb (CPython.numero_imprimivel w) antes = true ->
  CPython.numero_imprimivel w q = false ->
  CPython.para_cada (antes ++ q :: depois)
    (fun quarto =>
       CPython.bind (CPython.gets (fun w => CPython.objetos w quarto))
         (fun u => CPython.print (CPython.linha_quarto u)))
    (CPython.com_linhas w l) =
  (inl CPython.ValueError,
   CPython.com_linhas w
     (l ++ map (fun q => CPython.linha_quarto (CPython.objetos w q)) antes)).
Proof.
  revert l. induction antes as [|a antes IH]; intros l Hantes Hq; simpl.
  - unfold CPython.bind at 1. rewrite imprimir_quarto_cpython, Hq.
    rewrite app_nil_r. reflexivity.
  - simpl in Hantes. apply andb_prop in Hantes as [Ha Hantes].
    unfold CPython.bind at 1. rewrite imprimir_quarto_cpython, Ha.
    rewrite IH by assumption. rewrite <- app_assoc. reflexivity.
Qed.

Lemma listar_quartos_cpython_eq (w : CPython.Estado) :
  CPython.listar_quartos w =
  CPython.bind
    (CPython.para_cada (quartos (CPython.sistema w))
       (fun quarto =>
          CPython.bind (CPython.gets (fun w => CPython.objetos w quarto))
            (fun u => CPython.print (CPython.linha_quarto u))))
    (fun _ => CPython.print CPython.rodape_quartos)
    (CPython.com_linhas w [CPython.cabecalho_quartos]).
Proof. reflexivity. Qed.

(** X1. [listar_quartos] prints its heading, then one line per unit of the
    system, in the order of registration, each with the unit's number,
    location, type name and daily rate as they are at the call (["NÃO
    ASSOCIADO"] and 0.0 for a unit without a type), then its closing line,
    and returns, when the number of every unit has at most 4300 digits.
    Otherwise it raises [ValueError] at the first unit whose number has
    more, after the heading and the lines of the units before it.  In both
    cases it changes neither the system nor any unit. *)
Theorem X1_listar_quartos_cpython :
  forall w : CPython.Estado,
    let linha := fun q => CPython.linha_quarto (CPython.objetos w q) in
    (forallb (CPython.numero_imprimivel w) (quartos (CPython.sistema w)) = true ->
     CPython.listar_quartos w =
     (inr tt,
      CPython.com_linhas w
        (CPython.cabecalho_quartos ::
         map linha (quartos (CPython.sistema w)) ++
         [CPython.rodape_quartos]))) /\
    (forall antes q depois,
        quartos (CPython.sistema w) = antes ++ q :: depois ->
        forallb (CPython.numero_imprimivel w) antes = true ->
        CPython.numero_imprimivel w q = false ->
        CPython.listar_quartos w =
        (inl CPython.ValueError,
         CPython.com_linhas w (CPython.cabecalho_quartos :: map linha antes)))
    /\
    CPython.sistema (snd (CPython.listar_quartos w)) = CPython.sistema w /\
    CPython.objetos (snd (CPython.listar_quartos w)) = CPython.objetos w.
Proof.
  intros w linha.
  assert (Hok : forallb (CPython.numero_imprimivel w) (quartos (CPython.sistema w))
                = true ->
                CPython.listar_quartos w =
                (inr tt,
                 CPython.com_linhas w
                   (CPython.cabecalho_quartos ::
                    map linha (quartos (CPython.sistema w)) ++
                    [CPython.rodape_quartos]))).
  { intros Hqs. rewrite listar_quartos_cpython_eq.
    unfold CPython.bind at 1. erewrite para_cada_cpython_ok by eassumption.
    rewrite print_cpython. cbn [CPython.imprimivel CPython.rodape_quartos].
    rewrite com_linhas_com_linha. reflexivity. }
  assert (Herro : forall antes q depois,
             quartos (CPython.sistema w) = antes ++ q :: depois ->
             forallb (CPython.numero_imprimivel w) antes = true ->
             CPython.numero_imprimivel w q = false ->
             CPython.listar_quartos w =
             (inl CPython.ValueError,
              CPython.com_linhas w
                (CPython.cabecalho_quartos :: map linha antes))).
  { intros antes q depois Eqs Hantes Hq. rewrite listar_quartos_cpython_eq.
    unfold CPython.bind at 1. rewrite Eqs.
    erewrite para_cada_cpython_erro by eassumption. reflexivity. }
  split; [exact Hok|]. split; [exact Herro|].
  destruct (forallb (CPython.numero_imprimivel w) (quartos (CPython.sistema w)))
    eqn:Hqs.
  - rewrite (Hok eq_refl). split; reflexivity.
  - assert (Hex : exists antes q depois,
               quartos (CPython.sistema w) = antes ++ q :: depois /\
               forallb (CPython.numero_imprimivel w) antes = true /\
               CPython.numero_imprimivel w q = false).
    { clear Hok Herro. induction (quartos (CPython.sistema w)) as [|a l IH];
        simpl in Hqs; [discriminate|].
      destruct (CPython.numero_imprimivel w a) eqn:Ha.
      - simpl in Hqs. destruct (IH Hqs) as (antes & q & depois & E & H1 & H2).
        exists (a :: antes), q, depois. rewrite E. simpl. rewrite Ha. auto.
      - exists [], a, l. auto. }
    destruct Hex as (antes & q & depois & E & H1 & H2).
    rewrite (Herro antes q depois E H1 H2). split; reflexivity.
Qed.

End ListagemCPython.

Lemma X1_listar_quartos_cpython_witness :
  CPython.listar_quartos CPython.estado_exemplo =
  (inr tt,
   CPython.com_linhas CPython.estado_exemplo
     [CPython.cabecalho_quartos;
      CPython.ImpQuarto 101 "1º andar, vista mar" "Standard" 150%float;
      CPython.ImpQuarto 301 "3º andar, cobertura" "NÃO ASSOCIADO" 0%float;
      CPython.rodape_quartos]) /\
  CPython.listar_quartos CPython.estado_numero_longo =
  (inl CPython.ValueError,
   CPython.com_linhas CPython.estado_numero_longo
     [CPython.cabecalho_quartos;
      CPython.ImpQuarto 101 "1º andar, vista mar" "NÃO ASSOCIADO" 0%float]).
Proof.
  assert (Hok101 : CPython.str_int_ok 101 = true)
    by (apply str_int_ok_curto; reflexivity).
  assert (Hok301 : CPython.str_int_ok 301 = true)
    by (apply str_int_ok_curto; reflexivity).
  assert (Hqs : forallb (CPython.numero_imprimivel CPython.estado_exemplo)
                  (quartos (CPython.sistema CPython.estado_exemplo)) = true)
    by (change (CPython.str_int_ok 101 && (CPython.str_int_ok 301 && true)
                = true);
        rewrite Hok101, Hok301; reflexivity).
  assert (Eqs : quartos (CPython.sistema CPython.estado_numero_longo) =
                [0%nat] ++ 1%nat :: []) by reflexivity.
  assert (Hantes : forallb (CPython.numero_imprimivel
                              CPython.estado_numero_longo) [0%nat] = true)
    by (change (CPython.str_int_ok 101 && true = true);
        rewrite Hok101; reflexivity).
  assert (Hq : CPython.numero_imprimivel CPython.estado_numero_longo 1%nat
               = false)
    by (change (CPython.str_int_ok (10 ^ 4300) = false);
        apply str_int_ok_longo; apply Z.le_refl).
  split.
  - exact (proj1 (X1_listar_quartos_cpython CPython.estado_exemplo) Hqs).
  - exact (proj1 (proj2 (X1_listar_quartos_cpython
                           CPython.estado_numero_longo))
             [0%nat] 1%nat [] Eqs Hantes Hq).
Defined.
